(** * wrf.projection: map-projection metadata of WRF output

    A shallow embedding of [src/wrf/projection.py].  The module turns the
    projection attributes of a WRF file (MAP_PROJ, TRUELAT1, TRUELAT2,
    MOAD_CEN_LAT, STAND_LON, POLE_LAT, POLE_LON, ...) into one object per
    projection kind and derives from it a PROJ.4 descriptor, a NetCDF CF
    mapping and the keyword sets handed to PyNGL, basemap and cartopy.

    Modelling choices, all visible in the definitions below:
    - the interpreter is Python 3: ordering [None] against a number raises
      [TypeError], and so does [bytes] of a [str] without an encoding;
    - a Python number is a finite double, read as the rational it denotes
      ([Q]); comparisons are the exact ones ([Qeq_bool], [Qle_bool]) and
      [None] is [None] of [option Q].  Arithmetic is written with the
      operations of [Q]; a result is stated as the expression the code
      evaluates, and no statement below relies on an identity of exact
      arithmetic that rounding would break.  NaN and the infinities are
      not values of the model;
    - a raised exception is a value of [PyError], threaded by [result];
      arithmetic on [None] raises [TypeError] as in Python;
    - the keyword bag [**proj_params] is an insertion-ordered list of
      (key, value) pairs; the upper-cased dictionary is a [gmap]; keys are
      upper-cased letter by letter over ASCII, which is [str.upper] on keys
      of ASCII text, as the attribute names of WRF are;
    - the corners are [CoordPair] objects and the grids two-dimensional
      arrays of numbers, as [WrfProj.__init__] and [getproj] document them;
    - the classes of the toolkits are outside the module: a call of
      [Basemap(...)] or of a [crs] class is recorded as the keyword set
      handed over, and the [Basemap] constructor and cartopy's
      [transform_points] are parameters that may raise;
    - the format holes of the PROJ.4 string are kept as a structured
      (key, value) list: the textual rendering of a float is not
      modelled. *)

From Stdlib Require Import QArith ZArith List String Ascii Bool.
From stdpp Require Import base option gmap strings.

Local Open Scope Q_scope.
Local Open Scope string_scope.

(** ** Python values, exceptions *)

Abbreviation pyval := (option Q).

Inductive PyError : Set :=
| ValueError
| TypeError
| IndexError
| RuntimeError
| NameError
| AttributeError.

Inductive result (A : Type) : Type :=
| Ok (a : A)
| Raise (e : PyError).

Arguments Ok {A} a.
Arguments Raise {A} e.

Definition bind {A B : Type} (r : result A) (k : A -> result B) : result B :=
  match r with
  | Ok a => k a
  | Raise e => Raise e
  end.

Notation "x <-- r ;; k" := (bind r (fun x => k))
  (at level 100, r at next level, right associativity).

Definition Qltb (x y : Q) : bool := negb (Qle_bool y x).

(** [v == c] for a value that may be [None]: [None == c] is [False]. *)
Definition py_eq (v : pyval) (c : Q) : bool :=
  match v with
  | Some q => Qeq_bool q c
  | None => false
  end.

(** [v < c]: ordering [None] against a number raises (Python 3; Python 2
    would answer [True]).  Only [PolarStereographic.__init__] compares a
    value that may be [None] without testing it first. *)
Definition py_lt (v : pyval) (c : Q) : result bool :=
  match v with
  | Some q => Ok (Qltb q c)
  | None => Raise TypeError
  end.

(** [-v] and [a - b], [a + b] on values that may be [None]. *)
Definition py_neg (v : pyval) : result Q :=
  match v with
  | Some q => Ok (- q)
  | None => Raise TypeError
  end.

Definition py_sub (a b : pyval) : result Q :=
  match a, b with
  | Some x, Some y => Ok (x - y)
  | _, _ => Raise TypeError
  end.

Definition py_add (a b : pyval) : result Q :=
  match a, b with
  | Some x, Some y => Ok (x + y)
  | _, _ => Raise TypeError
  end.

(** [bytes(s)] for a [str] literal [s], with no encoding given: Python 3
    raises [TypeError].  (Under [unicode_literals] every string literal of
    the module is a [str].) *)
Definition py_bytes (s : string) : result string := Raise TypeError.

(** [_ismissing(val)]: [val is None or val > 90. or val < -90.] *)
Definition _ismissing (val : pyval) : bool :=
  match val with
  | None => true
  | Some q => Qltb 90 q || Qltb q (-90)
  end.

(** ** The parameter bag *)

(** [key.upper()], letter by letter: the letters a to z are changed and
    nothing else.  This is [str.upper] on a key of ASCII text; the case
    mappings of characters beyond ASCII are not modelled. *)
Definition upper_ascii (c : ascii) : ascii :=
  let n := nat_of_ascii c in
  if (Nat.leb 97 n && Nat.leb n 122)%bool then ascii_of_nat (n - 32) else c.

Fixpoint upper (s : string) : string :=
  match s with
  | EmptyString => EmptyString
  | String c s' => String (upper_ascii c) (upper s')
  end.

(** Modelled from the spec: [dict_keys_to_upper] of [wrf.projutils], which is
    not among the sources.  Section 4.1: every key is upper-cased and its
    value kept; the result is a dictionary, so of two keys that differ only
    in case the one inserted later stays. *)
Definition dict_keys_to_upper (d : list (string * pyval)) : gmap string pyval :=
  fold_left (fun m kv => <[upper (fst kv) := snd kv]> m) d ∅.

(** [d.get(key, dflt)] *)
Definition get (d : gmap string pyval) (key : string) (dflt : pyval) : pyval :=
  match d !! key with
  | Some v => v
  | None => dflt
  end.

(** ** Corner points *)

(** Modelled from the spec: the [CoordPair] class of [wrf.coordpair], which
    is not among the sources.  Section 3: a corner is a (latitude, longitude)
    point; the constructor reads its [lat] and [lon] attributes. *)
Record CoordPair : Type := mkCoordPair { lat : pyval; lon : pyval }.

(** A two-dimensional coordinate array, row by row. *)
Abbreviation grid := (list (list Q)).

(** [a[0,0]] *)
Definition grid_first (a : grid) : result pyval :=
  match a with
  | (x :: _) :: _ => Ok (Some x)
  | _ => Raise IndexError
  end.

(** [a[-1,-1]] *)
Definition grid_last (a : grid) : result pyval :=
  match last a with
  | Some row =>
      match last row with
      | Some x => Ok (Some x)
      | None => Raise IndexError
      end
  | None => Raise IndexError
  end.

Record Corners : Type := mkCorners {
  ll_lat : pyval;
  ll_lon : pyval;
  ur_lat : pyval;
  ur_lon : pyval
}.

(** The first block of [WrfProj.__init__]: the explicit pair wins, then the
    two grids, otherwise [ValueError]. *)
Definition corner_points (bottom_left top_right : option CoordPair)
    (lats lons : option grid) : result Corners :=
  match bottom_left, top_right with
  | Some bl, Some tr =>
      Ok {| ll_lat := lat bl; ll_lon := lon bl;
            ur_lat := lat tr; ur_lon := lon tr |}
  | _, _ =>
      match lats, lons with
      | Some la, Some lo =>
          lllat <-- grid_first la ;;
          urlat <-- grid_last la ;;
          lllon <-- grid_first lo ;;
          urlon <-- grid_last lo ;;
          Ok {| ll_lat := lllat; ll_lon := lllon;
                ur_lat := urlat; ur_lon := urlon |}
      | _, _ => Raise ValueError
      end
  end.

(** ** The base class [WrfProj] *)

(** The attributes every projection object carries.  The two [CoordPair]
    objects kept in [bottom_left] and [top_right] repeat the four corner
    numbers and are left out. *)
Record WrfProj : Type := mkWrfProj {
  corners : Corners;
  map_proj : pyval;
  _cen_lat : pyval;
  _cen_lon : pyval;
  truelat1 : pyval;
  truelat2 : pyval;
  moad_cen_lat : pyval;
  stand_lon : pyval;
  pole_lat : pyval;
  pole_lon : pyval;
  dx : pyval;
  dy : pyval
}.

(** The attribute block of [WrfProj.__init__], after the corners. *)
Definition base_attrs (c : Corners) (proj_params : list (string * pyval))
    : WrfProj :=
  let up_proj_params := dict_keys_to_upper proj_params in
  let cen_lat := get up_proj_params "CEN_LAT" None in
  let cen_lon := get up_proj_params "CEN_LON" None in
  let moad := get up_proj_params "MOAD_CEN_LAT" None in
  let slon := get up_proj_params "STAND_LON" None in
  {| corners := c;
     map_proj := get up_proj_params "MAP_PROJ" None;
     _cen_lat := cen_lat;
     _cen_lon := cen_lon;
     truelat1 := get up_proj_params "TRUELAT1" None;
     truelat2 := if negb (_ismissing (get up_proj_params "TRUELAT2" None))
                 then get up_proj_params "TRUELAT2" None
                 else None;
     moad_cen_lat := match moad with None => cen_lat | Some _ => moad end;
     stand_lon := match slon with None => cen_lon | Some _ => slon end;
     pole_lat := get up_proj_params "POLE_LAT" None;
     pole_lon := get up_proj_params "POLE_LON" None;
     dx := get up_proj_params "DX" None;
     dy := get up_proj_params "DY" None |}.

(** [WrfProj.__init__] *)
Definition WrfProj_init (bottom_left top_right : option CoordPair)
    (lats lons : option grid) (proj_params : list (string * pyval))
    : result WrfProj :=
  c <-- corner_points bottom_left top_right lats lons ;;
  Ok (base_attrs c proj_params).

(** ** The projection classes *)

(** The attributes [RotatedLatLon.__init__] derives. *)
Record Rotated : Type := mkRotated {
  _north : bool;
  _pyngl_cen_lat : pyval;
  _pyngl_cen_lon : pyval;
  _bm_lon_0 : pyval;
  _bm_cart_pole_lat : pyval;
  _cart_pole_lon : pyval
}.

(** An object of [WrfProj] or of one of its subclasses on which
    [WrfProj.__init__] has run, with the attributes the subclass adds.
    [NullProjection], on which it has not, is the other case of
    [WrfObject] below. *)
Inductive Projection : Type :=
| Base (b : WrfProj)
| LambertConformal (b : WrfProj) (_std_parallels : list pyval)
| Mercator (b : WrfProj) (_lat_ts : pyval)
| PolarStereographic (b : WrfProj) (_hemi : Q) (_lat_ts : pyval)
| LatLon (b : WrfProj)
| RotatedLatLon (b : WrfProj) (r : Rotated).

Inductive ProjClass : Set :=
| CWrfProj | CLambertConformal | CMercator | CPolarStereographic
| CLatLon | CRotatedLatLon.

Definition class_of (p : Projection) : ProjClass :=
  match p with
  | Base _ => CWrfProj
  | LambertConformal _ _ => CLambertConformal
  | Mercator _ _ => CMercator
  | PolarStereographic _ _ _ => CPolarStereographic
  | LatLon _ => CLatLon
  | RotatedLatLon _ _ => CRotatedLatLon
  end.

Definition base_of (p : Projection) : WrfProj :=
  match p with
  | Base b | LambertConformal b _ | Mercator b _
  | PolarStereographic b _ _ | LatLon b | RotatedLatLon b _ => b
  end.

Section Constructors.

Variables (bottom_left top_right : option CoordPair).
Variables (lats lons : option grid).
Variable proj_params : list (string * pyval).

Definition Base_init : result Projection :=
  b <-- WrfProj_init bottom_left top_right lats lons proj_params ;;
  Ok (Base b).

(** [LambertConformal.__init__] *)
Definition LambertConformal_init : result Projection :=
  b <-- WrfProj_init bottom_left top_right lats lons proj_params ;;
  let std := [truelat1 b] in
  let std := match truelat2 b with
             | Some _ => (std ++ [truelat2 b])%list
             | None => std
             end in
  Ok (LambertConformal b std).

(** [Mercator.__init__] *)
Definition Mercator_init : result Projection :=
  b <-- WrfProj_init bottom_left top_right lats lons proj_params ;;
  let lat_ts := if py_eq (truelat1 b) 0 || _ismissing (truelat1 b)
                then None else truelat1 b in
  Ok (Mercator b lat_ts).

(** [PolarStereographic.__init__] *)
Definition PolarStereographic_init : result Projection :=
  b <-- WrfProj_init bottom_left top_right lats lons proj_params ;;
  south <-- py_lt (truelat1 b) 0 ;;
  let hemi := if south then -90 else 90 in
  let lat_ts := if _ismissing (truelat1 b) then None else truelat1 b in
  Ok (PolarStereographic b hemi lat_ts).

(** [LatLon.__init__] *)
Definition LatLon_init : result Projection :=
  b <-- WrfProj_init bottom_left top_right lats lons proj_params ;;
  Ok (LatLon b).

End Constructors.

(** [v is not None and v < 0.0] *)
Definition known_negative (v : pyval) : result bool :=
  match v with
  | None => Ok false
  | Some _ => py_lt v 0
  end.

(** The hemisphere block of [RotatedLatLon.__init__]: the value of
    [self._north] once the nested conditionals have run. *)
Definition rotated_north (b : WrfProj) : result bool :=
  match pole_lon b with
  | Some _ =>
      if py_eq (pole_lon b) 0 then Ok false
      else if negb (py_eq (pole_lon b) 180) then
        neg <-- known_negative (moad_cen_lat b) ;;
        Ok (if neg then false else true)
      else Ok true
  | None =>
      neg <-- known_negative (moad_cen_lat b) ;;
      Ok (if neg then false else true)
  end.

(** The second block of [RotatedLatLon.__init__]: the pole and longitude
    values of each consumer, in the order the assignments are made. *)
Definition rotated_attrs (b : WrfProj) (north : bool) : result Rotated :=
  match pole_lat b, stand_lon b with
  | Some _, Some _ =>
      pyngl_cen_lat <-- (if north then py_sub (Some 90) (pole_lat b)
                         else py_sub (pole_lat b) (Some 90)) ;;
      pyngl_cen_lon <-- (if north then py_neg (stand_lon b)
                         else py_sub (Some 180) (stand_lon b)) ;;
      bm_lon_0 <-- (if north then py_neg (stand_lon b)
                    else py_sub (Some 180) (stand_lon b)) ;;
      bm_cart_pole_lat <-- (if north then Ok (pole_lat b)
                            else x <-- py_neg (pole_lat b) ;; Ok (Some x)) ;;
      cart_pole_lon <-- (if north
                         then x <-- py_neg (stand_lon b) ;;
                              py_sub (Some x) (Some 180)
                         else py_neg (stand_lon b)) ;;
      Ok {| _north := north;
            _pyngl_cen_lat := Some pyngl_cen_lat;
            _pyngl_cen_lon := Some pyngl_cen_lon;
            _bm_lon_0 := Some bm_lon_0;
            _bm_cart_pole_lat := bm_cart_pole_lat;
            _cart_pole_lon := Some cart_pole_lon |}
  | _, _ =>
      let pyngl_cen_lat := moad_cen_lat b in
      let pyngl_cen_lon := stand_lon b in
      bm_cart_pole_lat <-- (if north then py_sub (Some 90) (moad_cen_lat b)
                            else py_sub (Some (-90)) (moad_cen_lat b)) ;;
      bm_lon_0 <-- (if north then py_neg (stand_lon b)
                    else py_sub (Some 180) (stand_lon b)) ;;
      cart_pole_lon <-- (if north
                         then x <-- py_neg (stand_lon b) ;;
                              py_sub (Some x) (Some 180)
                         else py_neg (stand_lon b)) ;;
      Ok {| _north := north;
            _pyngl_cen_lat := pyngl_cen_lat;
            _pyngl_cen_lon := pyngl_cen_lon;
            _bm_lon_0 := Some bm_lon_0;
            _bm_cart_pole_lat := Some bm_cart_pole_lat;
            _cart_pole_lon := Some cart_pole_lon |}
  end.

(** [RotatedLatLon.__init__] *)
Definition RotatedLatLon_init (bottom_left top_right : option CoordPair)
    (lats lons : option grid) (proj_params : list (string * pyval))
    : result Projection :=
  b <-- WrfProj_init bottom_left top_right lats lons proj_params ;;
  north <-- rotated_north b ;;
  r <-- rotated_attrs b north ;;
  Ok (RotatedLatLon b r).

(** ** The factory *)

(** The integer codes of [wrf.constants.ProjectionTypes]; the constants
    module is not among the sources, so the table is a parameter. *)
Record ProjectionTypes : Set := mkProjectionTypes {
  ZERO : Z;
  LAMBERT_CONFORMAL : Z;
  POLAR_STEREOGRAPHIC : Z;
  MERCATOR : Z;
  LAT_LON : Z
}.

(** [getproj] *)
Definition getproj (T : ProjectionTypes)
    (bottom_left top_right : option CoordPair)
    (lats lons : option grid) (proj_params : list (string * pyval))
    : result Projection :=
  let up_proj_params := dict_keys_to_upper proj_params in
  let proj_type := get up_proj_params "MAP_PROJ" (Some 0) in
  if py_eq proj_type (inject_Z (LAMBERT_CONFORMAL T)) then
    LambertConformal_init bottom_left top_right lats lons proj_params
  else if py_eq proj_type (inject_Z (POLAR_STEREOGRAPHIC T)) then
    PolarStereographic_init bottom_left top_right lats lons proj_params
  else if py_eq proj_type (inject_Z (MERCATOR T)) then
    Mercator_init bottom_left top_right lats lons proj_params
  else if py_eq proj_type (inject_Z (ZERO T))
          || py_eq proj_type (inject_Z (LAT_LON T)) then
    if py_eq (get up_proj_params "POLE_LAT" None) 90
       && py_eq (get up_proj_params "POLE_LON" None) 0
    then LatLon_init bottom_left top_right lats lons proj_params
    else RotatedLatLon_init bottom_left top_right lats lons proj_params
  else
    Base_init bottom_left top_right lats lons proj_params.

(** ** Output representations *)

(** A value stored in a CF mapping, a PyNGL resource, a toolkit keyword or a
    format hole of the PROJ.4 string. *)
Inductive OutVal : Type :=
| VStr (s : string)
| VNum (v : pyval)
| VList (l : list pyval)
| VRadians1
| VGlobe (semimajor_axis semiminor_axis : Q).

Abbreviation mapping := (list (string * OutVal)).

(** [m[key]] on a mapping whose keys are distinct. *)
Fixpoint mget (key : string) (m : mapping) : option OutVal :=
  match m with
  | [] => None
  | (k, v) :: m' => if String.eqb k key then Some v else mget key m'
  end.

(** An object of the module: one built by [WrfProj.__init__] through one of
    the classes above, or a [NullProjection], whose [__init__] does nothing
    and which therefore has none of the attributes. *)
Inductive WrfObject : Type :=
| Constructed (p : Projection)
| NullProjection.

Section Outputs.

(** [Constants.WRF_EARTH_RADIUS] and the three capability queries of
    [wrf.config]; both modules are outside the sources. *)
Variable WRF_EARTH_RADIUS : Q.
Variables pyngl_enabled basemap_enabled cartopy_enabled : bool.

(** cartopy's [transform_points], applied to the [crs] object a class
    builds and to the longitudes and latitudes of the two corners; it
    answers with the x and the y coordinates. *)
Variable transform_points :
  string * mapping -> list pyval -> list pyval -> result (list Q * list Q).

(** The [Basemap] class of [mpl_toolkits.basemap]: what its constructor
    makes of a keyword set, an object or an exception. *)
Variable BasemapObject : Type.
Variable Basemap : mapping -> result BasemapObject.

Definition corner_resources (b : WrfProj) : mapping :=
  [("mpLeftCornerLonF", VNum (ll_lon (corners b)));
   ("mpLeftCornerLatF", VNum (ll_lat (corners b)));
   ("mpRightCornerLonF", VNum (ur_lon (corners b)));
   ("mpRightCornerLatF", VNum (ur_lat (corners b)))].

Definition corner_keywords (b : WrfProj) : mapping :=
  [("llcrnrlat", VNum (ll_lat (corners b)));
   ("urcrnrlat", VNum (ur_lat (corners b)));
   ("llcrnrlon", VNum (ll_lon (corners b)));
   ("urcrnrlon", VNum (ur_lon (corners b)))].

(** [_cf_params], one clause per class. *)
Definition _cf_params (p : Projection) : option mapping :=
  match p with
  | Base _ => None
  | LambertConformal b std =>
      Some [("grid_mapping_name", VStr "lambert_conformal_conic");
            ("standard_parallel", VList std);
            ("longitude_of_central_meridian", VNum (stand_lon b));
            ("latitude_of_projection_origin", VNum (moad_cen_lat b));
            ("semi_major_axis", VNum (Some WRF_EARTH_RADIUS))]
  | Mercator b _ =>
      Some [("grid_mapping_name", VStr "mercator");
            ("longitude_of_projection_origin", VNum (stand_lon b));
            ("standard_parallel", VNum (truelat1 b))]
  | PolarStereographic b hemi _ =>
      Some [("grid_mapping_name", VStr "polar_stereographic");
            ("straight_vertical_longitude_from_pole", VNum (stand_lon b));
            ("standard_parallel", VNum (truelat1 b));
            ("latitude_of_projection_origin", VNum (Some hemi))]
  | LatLon _ =>
      Some [("grid_mapping_name", VStr "latitude_longitude")]
  | RotatedLatLon b r =>
      Some [("grid_mapping_name", VStr "rotated_latitude_longitude");
            ("grid_north_pole_latitude", VNum (_bm_cart_pole_lat r));
            ("grid_north_pole_longitude", VNum (pole_lon b));
            ("north_pole_grid_longitude", VNum (_bm_lon_0 r))]
  end.

(** The assignments every [_pyngl] builder makes to its [Resources]
    object, in their order: the three string resources, each through a call
    of the builtin [bytes] on a string literal, then the corners, then the
    resources [rest] of the class.  [bytes] is the builtin as the
    interpreter provides it. *)
Definition pyngl_resources (bytes : string -> result string)
    (projection : string) (b : WrfProj) (rest : mapping)
    : result (option mapping) :=
  mpProjection <-- bytes projection ;;
  mpDataBaseVersion <-- bytes "MediumRes" ;;
  mpLimitMode <-- bytes "Corners" ;;
  Ok (Some ([("mpProjection", VStr mpProjection);
             ("mpDataBaseVersion", VStr mpDataBaseVersion);
             ("mpLimitMode", VStr mpLimitMode)]
            ++ corner_resources b ++ rest)%list).

(** The [_pyngl] builders, one clause per class, for a given builtin
    [bytes]. *)
Definition _pyngl_on (bytes : string -> result string) (p : Projection)
    : result (option mapping) :=
  match p with
  | Base _ => Ok None
  | LambertConformal b _ =>
      if negb pyngl_enabled then Ok None else
      let truelat2' := if _ismissing (truelat2 b) then truelat1 b
                       else truelat2 b in
      pyngl_resources bytes "LambertConformal" b
        [("mpLambertMeridianF", VNum (stand_lon b));
         ("mpLambertParallel1F", VNum (truelat1 b));
         ("mpLambertParallel2F", VNum truelat2')]
  | Mercator b _ =>
      if negb pyngl_enabled then Ok None else
      pyngl_resources bytes "Mercator" b
        [("mpCenterLatF", VNum (Some 0));
         ("mpCenterLonF", VNum (stand_lon b))]
  | PolarStereographic b hemi _ =>
      if negb pyngl_enabled then Ok None else
      pyngl_resources bytes "Stereographic" b
        [("mpCenterLonF", VNum (stand_lon b));
         ("mpCenterLatF", VNum (Some (if Qltb 0 hemi then 90 else -90)))]
  | LatLon b =>
      if negb pyngl_enabled then Ok None else
      pyngl_resources bytes "CylindricalEquidistant" b
        [("mpCenterLonF", VNum (stand_lon b));
         ("mpCenterLatF", VNum (moad_cen_lat b))]
  | RotatedLatLon b r =>
      if negb pyngl_enabled then Ok None else
      pyngl_resources bytes "CylindricalEquidistant" b
        [("mpCenterLatF", VNum (_pyngl_cen_lat r));
         ("mpCenterLonF", VNum (_pyngl_cen_lon r))]
  end.

(** [_pyngl]: the builders as Python 3 runs them.  With PyNGL enabled the
    first [bytes("...")] of every subclass raises, so no resource is ever
    returned; the base class answers [None]. *)
Definition _pyngl (p : Projection) : result (option mapping) :=
  _pyngl_on py_bytes p.

(** [_basemap]: the keyword arguments handed to [Basemap(...)]. *)
Definition _basemap (p : Projection) (resolution : string)
    : option mapping :=
  let tail := [("rsphere", VNum (Some WRF_EARTH_RADIUS));
               ("resolution", VStr resolution)] in
  match p with
  | Base _ => None
  | LambertConformal b _ =>
      if negb basemap_enabled then None else
      Some ([("projection", VStr "lcc");
             ("lon_0", VNum (stand_lon b));
             ("lat_0", VNum (moad_cen_lat b));
             ("lat_1", VNum (truelat1 b));
             ("lat_2", VNum (truelat2 b))]
            ++ corner_keywords b ++ tail)%list
  | Mercator b lat_ts =>
      if negb basemap_enabled then None else
      Some ([("projection", VStr "merc");
             ("lon_0", VNum (stand_lon b));
             ("lat_0", VNum (moad_cen_lat b));
             ("lat_ts", VNum lat_ts)]
            ++ corner_keywords b ++ tail)%list
  | PolarStereographic b hemi lat_ts =>
      if negb basemap_enabled then None else
      Some ([("projection", VStr "stere");
             ("lon_0", VNum (stand_lon b));
             ("lat_0", VNum (Some hemi));
             ("lat_ts", VNum lat_ts)]
            ++ corner_keywords b ++ tail)%list
  | LatLon b =>
      if negb basemap_enabled then None else
      Some ([("projection", VStr "cyl");
             ("lon_0", VNum (stand_lon b));
             ("lat_0", VNum (moad_cen_lat b))]
            ++ corner_keywords b ++ tail)%list
  | RotatedLatLon b r =>
      if negb basemap_enabled then None else
      Some ([("projection", VStr "rotpole");
             ("o_lat_p", VNum (_bm_cart_pole_lat r));
             ("o_lon_p", VNum (pole_lon b))]
            ++ corner_keywords b
            ++ [("lon_0", VNum (_bm_lon_0 r))] ++ tail)%list
  end.

(** [_globe] *)
Definition _globe : OutVal :=
  if negb cartopy_enabled then VNum None
  else VGlobe WRF_EARTH_RADIUS WRF_EARTH_RADIUS.

(** [_cartopy]: the [crs] class that is instantiated, with its keywords. *)
Definition _cartopy (p : Projection) : result (option (string * mapping)) :=
  match p with
  | Base _ => Ok None
  | LambertConformal b std =>
      if negb cartopy_enabled then Ok None else
      Ok (Some ("LambertConformal",
                [("central_longitude", VNum (stand_lon b));
                 ("central_latitude", VNum (moad_cen_lat b));
                 ("standard_parallels", VList std);
                 ("globe", _globe)]))
  | Mercator b lat_ts =>
      if negb cartopy_enabled then Ok None else
      if py_eq lat_ts 0 then
        Ok (Some ("Mercator",
                  [("central_longitude", VNum (stand_lon b));
                   ("globe", _globe)]))
      else
        Ok (Some ("MercatorWithLatTS",
                  [("central_longitude", VNum (stand_lon b));
                   ("latitude_true_scale", VNum lat_ts);
                   ("globe", _globe)]))
  | PolarStereographic b hemi lat_ts =>
      if negb cartopy_enabled then Ok None else
      Ok (Some ("Stereographic",
                [("central_latitude", VNum (Some hemi));
                 ("central_longitude", VNum (stand_lon b));
                 ("true_scale_latitude", VNum lat_ts);
                 ("globe", _globe)]))
  | LatLon b =>
      if negb cartopy_enabled then Ok None else
      Ok (Some ("PlateCarree",
                [("central_longitude", VNum (stand_lon b));
                 ("globe", _globe)]))
  | RotatedLatLon b r =>
      if negb cartopy_enabled then Ok None else
      central <-- py_sub (Some 180) (pole_lon b) ;;
      Ok (Some ("RotatedPole",
                [("pole_longitude", VNum (_cart_pole_lon r));
                 ("pole_latitude", VNum (_bm_cart_pole_lat r));
                 ("central_rotated_longitude", VNum (Some central));
                 ("globe", _globe)]))
  end.

(** [_proj4]: the [+key=value] tokens of the descriptor, each hole of the
    format string with the value put into it. *)
Definition _proj4 (p : Projection) : result (option mapping) :=
  let ab := [("+a", VNum (Some WRF_EARTH_RADIUS));
             ("+b", VNum (Some WRF_EARTH_RADIUS))] in
  match p with
  | Base _ => Ok None
  | LambertConformal b _ =>
      let truelat2' := if _ismissing (truelat2 b) then truelat1 b
                       else truelat2 b in
      Ok (Some ([("+proj", VStr "lcc"); ("+units", VStr "meters")] ++ ab
                ++ [("+lat_1", VNum (truelat1 b));
                    ("+lat_2", VNum truelat2');
                    ("+lat_0", VNum (moad_cen_lat b));
                    ("+lon_0", VNum (stand_lon b))])%list)
  | Mercator b lat_ts =>
      Ok (Some ([("+proj", VStr "merc"); ("+units", VStr "meters")] ++ ab
                ++ [("+lon_0", VNum (stand_lon b));
                    ("+lat_ts", VNum lat_ts)])%list)
  | PolarStereographic b hemi lat_ts =>
      Ok (Some ([("+proj", VStr "stere"); ("+units", VStr "meters")] ++ ab
                ++ [("+lat0", VNum (Some hemi));
                    ("+lon_0", VNum (stand_lon b));
                    ("+lat_ts", VNum lat_ts)])%list)
  | LatLon b =>
      Ok (Some ([("+proj", VStr "eqc"); ("+units", VStr "meters")] ++ ab
                ++ [("+lon_0", VNum (stand_lon b))])%list)
  | RotatedLatLon b r =>
      o_lon_p <-- py_sub (Some 180) (pole_lon b) ;;
      lon_0 <-- py_add (Some 180) (_cart_pole_lon r) ;;
      Ok (Some ([("+proj", VStr "ob_tran"); ("+o_proj", VStr "latlon")]
                ++ ab
                ++ [("+to_meter", VRadians1);
                    ("+o_lon_p", VNum (Some o_lon_p));
                    ("+o_lat_p", VNum (_bm_cart_pole_lat r));
                    ("+lon_0", VNum (Some lon_0))])%list)
  end.

(** [_cart_extents]: the raw corners for the base class and for LatLon;
    the other classes send the corners through their [crs] object, and need
    the [crs] module for it. *)
Definition _cart_extents (p : Projection)
    : result (list pyval * list pyval) :=
  match p with
  | Base b | LatLon b =>
      Ok ([ll_lon (corners b); ur_lon (corners b)],
          [ll_lat (corners b); ur_lat (corners b)])
  | LambertConformal b _ | Mercator b _ | PolarStereographic b _ _
  | RotatedLatLon b _ =>
      if negb cartopy_enabled then Raise NameError else
      crs <-- _cartopy p ;;
      match crs with
      | None => Raise AttributeError
      | Some crs =>
          xy <-- transform_points crs
                   [ll_lon (corners b); ur_lon (corners b)]
                   [ll_lat (corners b); ur_lat (corners b)] ;;
          Ok (map Some (fst xy), map Some (snd xy))
      end
  end.

(** The public methods, on any object of the module.  [NullProjection]
    inherits them from [WrfProj]; its own [__init__] sets no attribute, so
    the inherited private builders answer [None] and the inherited
    [_cart_extents], which reads [self.ll_lon], raises [AttributeError]. *)

(** [cartopy_xlim] and [cartopy_ylim] *)
Definition cartopy_xlim (o : WrfObject) : result (list pyval) :=
  match o with
  | Constructed p => e <-- _cart_extents p ;; Ok (fst e)
  | NullProjection => Raise AttributeError
  end.

Definition cartopy_ylim (o : WrfObject) : result (list pyval) :=
  match o with
  | Constructed p => e <-- _cart_extents p ;; Ok (snd e)
  | NullProjection => Raise AttributeError
  end.

(** [cf] and [proj4] *)
Definition cf (o : WrfObject) : option mapping :=
  match o with
  | Constructed p => _cf_params p
  | NullProjection => None
  end.

Definition proj4 (o : WrfObject) : result (option mapping) :=
  match o with
  | Constructed p => _proj4 p
  | NullProjection => Ok None
  end.

(** [pyngl] *)
Definition pyngl (o : WrfObject) : result (option mapping) :=
  if negb pyngl_enabled then Raise RuntimeError
  else match o with
       | Constructed p => _pyngl p
       | NullProjection => Ok None
       end.

(** [basemap].  [_basemap] above is the keyword set of the call
    [Basemap(...)]; the call itself is completed here, through the
    constructor [Basemap] of the toolkit, which may raise. *)
Definition basemap (o : WrfObject) (resolution : string)
    : result (option BasemapObject) :=
  if negb basemap_enabled then Raise RuntimeError
  else match o with
       | Constructed p =>
           match _basemap p resolution with
           | Some keywords => m <-- Basemap keywords ;; Ok (Some m)
           | None => Ok None
           end
       | NullProjection => Ok None
       end.

(** [cartopy]; [_cartopy] records the [crs] class and keywords of the call
    it makes. *)
Definition cartopy (o : WrfObject) : result (option (string * mapping)) :=
  if negb cartopy_enabled then Raise RuntimeError
  else match o with
       | Constructed p => _cartopy p
       | NullProjection => Ok None
       end.

End Outputs.

(** ** [MercatorWithLatTS]: the plane limits *)

Record MercatorWithLatTS : Type := mkMercatorWithLatTS {
  _xlimits : Q * Q;
  _ylimits : Q * Q;
  _threshold : Q
}.

(** The limits block of [MercatorWithLatTS.__init__].  [limits] is what
    [transform_points] returned for the two extreme points, as (x, y)
    pairs; the x column is corrected in place when both entries agree. *)
Definition MercatorWithLatTS_init (limits : (Q * Q) * (Q * Q))
    : MercatorWithLatTS :=
  let x0 := fst (fst limits) in
  let x1 := fst (snd limits) in
  let xlimits :=
    if Qeq_bool x0 x1 then
      if Qltb x0 0 then (x0, - x1) else (- x0, x1)
    else (x0, x1) in
  {| _xlimits := xlimits;
     _ylimits := (snd (fst limits), snd (snd limits));
     _threshold := (snd xlimits - fst xlimits) / 720 |}.

(** * Specification vocabulary *)

(** ** Sample data *)

(** The numbering WRF gives its projections. *)
Definition wrf_codes : ProjectionTypes :=
  {| ZERO := 0; LAMBERT_CONFORMAL := 1; POLAR_STEREOGRAPHIC := 2;
     MERCATOR := 3; LAT_LON := 6 |}.

Definition sw_corner : CoordPair := {| lat := Some 21; lon := Some (-123) |}.
Definition ne_corner : CoordPair := {| lat := Some 47; lon := Some (-61) |}.
Definition sample_corners : Corners :=
  {| ll_lat := Some 21; ll_lon := Some (-123);
     ur_lat := Some 47; ur_lon := Some (-61) |}.
Definition sample_grid : grid := [[21; 22]; [46; 47]].

(** ** Values *)

(** [v] is a number equal to [c]. *)
Definition is_num (v : pyval) (c : Q) : Prop :=
  exists q, v = Some q /\ q == c.

(** The validity predicate of section 4.2, in words: absent, above +90 or
    below -90. *)
Definition missing (v : pyval) : Prop :=
  v = None \/ exists q, v = Some q /\ (90 < q \/ q < -90).

(** [v] is known and negative. *)
Definition negative (v : pyval) : Prop :=
  exists q, v = Some q /\ q < 0.

(** ** The dispatch table of section 4.10 *)

(** The codes of an enumeration are pairwise distinct, and the code the
    spec calls 0 is 0. *)
Definition codes_wf (T : ProjectionTypes) : Prop :=
  ZERO T = 0%Z /\
  NoDup [ZERO T; LAMBERT_CONFORMAL T; POLAR_STEREOGRAPHIC T; MERCATOR T;
         LAT_LON T].

(** The type code [getproj] reads from a bag. *)
Definition type_code (proj_params : list (string * pyval)) : pyval :=
  get (dict_keys_to_upper proj_params) "MAP_PROJ" (Some 0).

(** The class section 4.10 prescribes for a type code and a pole position. *)
Inductive prescribed (T : ProjectionTypes) (code plat plon : pyval)
    : ProjClass -> Prop :=
| prescribed_lambert :
    is_num code (inject_Z (LAMBERT_CONFORMAL T)) ->
    prescribed T code plat plon CLambertConformal
| prescribed_polar :
    is_num code (inject_Z (POLAR_STEREOGRAPHIC T)) ->
    prescribed T code plat plon CPolarStereographic
| prescribed_mercator :
    is_num code (inject_Z (MERCATOR T)) ->
    prescribed T code plat plon CMercator
| prescribed_latlon :
    is_num code 0 \/ is_num code (inject_Z (LAT_LON T)) ->
    is_num plat 90 -> is_num plon 0 ->
    prescribed T code plat plon CLatLon
| prescribed_rotated :
    is_num code 0 \/ is_num code (inject_Z (LAT_LON T)) ->
    ~ (is_num plat 90 /\ is_num plon 0) ->
    prescribed T code plat plon CRotatedLatLon
| prescribed_unknown :
    ~ is_num code (inject_Z (LAMBERT_CONFORMAL T)) ->
    ~ is_num code (inject_Z (POLAR_STEREOGRAPHIC T)) ->
    ~ is_num code (inject_Z (MERCATOR T)) ->
    ~ is_num code 0 ->
    ~ is_num code (inject_Z (LAT_LON T)) ->
    prescribed T code plat plon CWrfProj.

(** The numeric attributes a constructor computes with: an object of the
    class can only be built when they are numbers. *)
Definition constructible (cls : ProjClass) (b : WrfProj) : Prop :=
  match cls with
  | CPolarStereographic => truelat1 b <> None
  | CRotatedLatLon =>
      stand_lon b <> None /\ (pole_lat b <> None \/ moad_cen_lat b <> None)
  | _ => True
  end.

(** An object that offers its extent and nothing else: whatever the
    environment, every representation it is asked for is [None], and its
    extent is the raw corner box. *)
Definition extent_only (p : Projection) : Prop :=
  forall (R : Q) (ngl bm cart : bool) (resolution : string)
         (tp : string * mapping -> list pyval -> list pyval ->
               result (list Q * list Q)),
    _cf_params R p = None /\
    _proj4 R p = Ok None /\
    _pyngl ngl p = Ok None /\
    _basemap R bm p resolution = None /\
    _cartopy R cart p = Ok None /\
    _cart_extents R cart tp p =
      Ok ([ll_lon (corners (base_of p)); ur_lon (corners (base_of p))],
          [ll_lat (corners (base_of p)); ur_lat (corners (base_of p))]).

(** The constructor of a class. *)
Definition init_of (cls : ProjClass) :=
  match cls with
  | CWrfProj => Base_init
  | CLambertConformal => LambertConformal_init
  | CMercator => Mercator_init
  | CPolarStereographic => PolarStereographic_init
  | CLatLon => LatLon_init
  | CRotatedLatLon => RotatedLatLon_init
  end.

(** ** Hemisphere of a rotated grid, section 4.8 *)

(** Southern hemisphere by the priority list as the spec words it. *)
Definition southern_as_listed (plon moad : pyval) : Prop :=
  is_num plon 0 \/
  (plon <> None /\ ~ is_num plon 0 /\ ~ is_num plon 180 /\ negative moad) \/
  ((plon = None \/ is_num plon 180) /\ negative moad).

(** Southern hemisphere as the nested conditionals decide it: a pole
    longitude of 180 means north whatever the centre latitude. *)
Definition southern (plon moad : pyval) : Prop :=
  is_num plon 0 \/
  (plon <> None /\ ~ is_num plon 0 /\ ~ is_num plon 180 /\ negative moad) \/
  (plon = None /\ negative moad).

(** ** Mercator, section 4.5 *)

Definition zero_or_invalid (v : pyval) : Prop :=
  is_num v 0 \/ missing v.

(** ** Sample bags *)

Definition rotated_bag : list (string * pyval) :=
  [("MAP_PROJ", Some 6); ("POLE_LAT", Some 36); ("POLE_LON", Some 0);
   ("STAND_LON", Some (-106))].

Definition stand_lon_only_bag : list (string * pyval) :=
  [("STAND_LON", Some (-106))].

Definition latlon_bag : list (string * pyval) :=
  [("pole_lat", Some 90); ("pole_lon", Some 0); ("stand_lon", Some (-98))].

Definition north180_bag : list (string * pyval) :=
  [("POLE_LAT", Some 36); ("POLE_LON", Some 180); ("STAND_LON", Some (-106));
   ("MOAD_CEN_LAT", Some (-10))].

Definition dateline_bag : list (string * pyval) :=
  [("POLE_LAT", Some 36); ("POLE_LON", Some 0); ("STAND_LON", Some (-106))].

Definition northern_bag : list (string * pyval) :=
  [("POLE_LAT", Some 54); ("POLE_LON", Some 180); ("STAND_LON", Some 10);
   ("CEN_LAT", Some 50)].

Definition lambert_single_bag : list (string * pyval) :=
  [("MAP_PROJ", Some 1); ("TRUELAT1", Some 30); ("TRUELAT2", Some 100);
   ("STAND_LON", Some (-98)); ("MOAD_CEN_LAT", Some 39)].

Definition lambert_two_bag : list (string * pyval) :=
  [("MAP_PROJ", Some 1); ("TRUELAT1", Some 30); ("TRUELAT2", Some 60);
   ("STAND_LON", Some (-98)); ("MOAD_CEN_LAT", Some 39)].

Definition mercator_bag : list (string * pyval) :=
  [("MAP_PROJ", Some 3); ("TRUELAT1", Some 20); ("STAND_LON", Some 120)].

Definition polar_bag : list (string * pyval) :=
  [("MAP_PROJ", Some 2); ("TRUELAT1", Some (-71)); ("STAND_LON", Some 0)].

Definition earth_radius : Q := 6370000.

(** The second entry of the [standard_parallel] list of a CF mapping. *)
Definition cf_second_parallel (m : mapping) : option pyval :=
  match mget "standard_parallel" m with
  | Some (VList l) => l !! 1%nat
  | _ => None
  end.

(** ** Bags and grids used in the further properties *)



Definition none_code_bag : list (string * pyval) :=
  [("MAP_PROJ", None); ("TRUELAT1", Some 30); ("STAND_LON", Some (-98))].

Definition fallback_bag : list (string * pyval) :=
  [("MAP_PROJ", Some 6); ("CEN_LAT", Some (-34)); ("CEN_LON", Some 151)].

Definition sample_lons : grid := [[-123; -120]; [-64; -61]].

Definition equator_mercator_bag : list (string * pyval) :=
  [("MAP_PROJ", Some 3); ("TRUELAT1", Some 0); ("STAND_LON", Some 120)].

Definition south_fallback_bag : list (string * pyval) :=
  [("POLE_LON", Some 0); ("STAND_LON", Some 25); ("MOAD_CEN_LAT", Some (-30))].


Definition no_pole_lon_bag : list (string * pyval) :=
  [("POLE_LAT", Some 54); ("STAND_LON", Some 10); ("MOAD_CEN_LAT", Some 50)].

(** ** Keys of ASCII text *)



(** ** Sample objects and toolkits *)

Definition latlon_object : Projection :=
  LatLon (base_attrs sample_corners latlon_bag).

Definition polar_object : Projection :=
  PolarStereographic (base_attrs sample_corners polar_bag) (-90)
    (Some (-71)).

(** A [Basemap] constructor that keeps the keyword set it was given, and
    one that fails the way a missing data file makes it fail. *)
Definition keeping_Basemap (keywords : mapping) : result mapping :=
  Ok keywords.

Definition failing_Basemap (keywords : mapping) : result mapping :=
  Raise RuntimeError.

(** * Properties *)

(** ** Comparisons *)

Lemma Qltb_lt (x y : Q) : Qltb x y = true <-> x < y.
Proof.
  unfold Qltb. rewrite negb_true_iff. split.
  - intros H. apply Qnot_le_lt. intros Hle.
    apply Qle_bool_iff in Hle. congruence.
  - intros H. destruct (Qle_bool y x) eqn:E; [|reflexivity].
    apply Qle_bool_iff in E. exfalso. exact (Qlt_not_le _ _ H E).
Qed.

Lemma Qltb_nlt (x y : Q) : Qltb x y = false <-> ~ x < y.
Proof.
  rewrite <- Qltb_lt. destruct (Qltb x y); split; congruence.
Qed.

Lemma py_eq_true (v : pyval) (c : Q) :
  py_eq v c = true <-> exists q, v = Some q /\ q == c.
Proof.
  destruct v as [q|]; simpl.
  - rewrite Qeq_bool_iff. split; [eauto|]. intros (q' & [= <-] & H). exact H.
  - split; [discriminate|]. intros (q' & [=] & _).
Qed.

Lemma py_eq_codes (v : pyval) (a b : Z) :
  py_eq v (inject_Z a) = true -> a <> b -> py_eq v (inject_Z b) = false.
Proof.
  intros Ha Hne. destruct (py_eq v (inject_Z b)) eqn:Hb; [|reflexivity].
  apply py_eq_true in Ha as (q & -> & Hq).
  apply py_eq_true in Hb as (q' & [= <-] & Hq').
  exfalso. apply Hne. apply inject_Z_injective.
  rewrite <- Hq. exact Hq'.
Qed.

Lemma _ismissing_spec (v : pyval) : _ismissing v = true <-> missing v.
Proof.
  unfold missing. destruct v as [q|]; simpl.
  - rewrite orb_true_iff, !Qltb_lt. split.
    + intros H. right. eauto.
    + intros [[=]|(q' & [= <-] & H)]. exact H.
  - split; auto.
Qed.

Lemma _ismissing_false (v : pyval) : _ismissing v = false <-> ~ missing v.
Proof.
  rewrite <- _ismissing_spec. destruct (_ismissing v); split; congruence.
Qed.

(** ** The upper-cased dictionary *)

Lemma fold_insert_absent (key : string) (d : list (string * pyval)) :
  Forall (fun kv => upper (fst kv) <> key) d ->
  forall m : gmap string pyval,
    m !! key = None ->
    fold_left (fun m kv => <[upper (fst kv) := snd kv]> m) d m !! key = None.
Proof.
  induction 1 as [|kv d Hkv _ IH]; intros m Hm; simpl; [exact Hm|].
  apply IH. rewrite lookup_insert_ne; [exact Hm | exact Hkv].
Qed.

(** A bag none of whose keys upper-cases to [key] has no entry for it. *)
Lemma dict_keys_to_upper_absent (key : string) (d : list (string * pyval)) :
  Forall (fun kv => upper (fst kv) <> key) d ->
  dict_keys_to_upper d !! key = None.
Proof.
  intros H. apply fold_insert_absent; [exact H | apply lookup_empty].
Qed.

Lemma get_absent (d : gmap string pyval) (key : string) (dflt : pyval) :
  d !! key = None -> get d key dflt = dflt.
Proof. unfold get. intros ->. reflexivity. Qed.

(** ** Construction of the base part *)

Lemma WrfProj_init_ok bl tr lats lons kw c :
  corner_points bl tr lats lons = Ok c ->
  WrfProj_init bl tr lats lons kw = Ok (base_attrs c kw).
Proof. unfold WrfProj_init. intros ->. reflexivity. Qed.

Lemma WrfProj_init_raise bl tr lats lons kw e :
  corner_points bl tr lats lons = Raise e ->
  WrfProj_init bl tr lats lons kw = Raise e.
Proof. unfold WrfProj_init. intros ->. reflexivity. Qed.

Lemma py_eq_false (v : pyval) (c : Q) : py_eq v c = false <-> ~ is_num v c.
Proof.
  unfold is_num. rewrite <- py_eq_true.
  destruct (py_eq v c); split; congruence.
Qed.

(** ** The rotated grid *)

Lemma known_negative_spec (v : pyval) :
  exists n, known_negative v = Ok n /\ (n = true <-> negative v).
Proof.
  unfold negative. destruct v as [q|]; simpl.
  - exists (Qltb q 0). split; [reflexivity|]. rewrite Qltb_lt. split.
    + eauto.
    + intros (q' & [= <-] & H). exact H.
  - exists false. split; [reflexivity|]. split; [discriminate|].
    intros (q & [=] & _).
Qed.

(** The hemisphere block never raises, and answers south exactly in the
    cases of [southern]. *)
Lemma rotated_north_spec (b : WrfProj) :
  exists n, rotated_north b = Ok n /\
            (n = false <-> southern (pole_lon b) (moad_cen_lat b)).
Proof.
  unfold rotated_north, southern.
  destruct (known_negative_spec (moad_cen_lat b)) as (neg & Hneg & Hiff).
  destruct (pole_lon b) as [l|] eqn:Hl.
  - destruct (py_eq (Some l) 0) eqn:E0.
    + exists false. split; [reflexivity|]. apply py_eq_true in E0.
      split; auto.
    + apply py_eq_false in E0.
      destruct (py_eq (Some l) 180) eqn:E180; simpl.
      * apply py_eq_true in E180. exists true. split; [reflexivity|].
        split; [discriminate|].
        intros [H|[(_ & _ & H & _)|([=] & _)]]; contradiction.
      * apply py_eq_false in E180. rewrite Hneg. simpl.
        exists (if neg then false else true). split; [reflexivity|].
        destruct neg.
        -- split; [|reflexivity]. intros _. right. left.
           repeat split; try assumption; [discriminate|]. now apply Hiff.
        -- split; [discriminate|].
           intros [H|[(_ & _ & _ & H)|([=] & _)]]; [contradiction|].
           apply Hiff in H. discriminate.
  - rewrite Hneg. simpl. exists (if neg then false else true).
    split; [reflexivity|]. destruct neg.
    + split; [|reflexivity]. intros _. right. right.
      split; [reflexivity|]. now apply Hiff.
    + split; [discriminate|].
      intros [(q & [=] & _)|[([] & _)|(_ & H)]]; [reflexivity|].
      apply Hiff in H. discriminate.
Qed.

(** What the attribute block stores, when it returns. *)
Lemma rotated_attrs_inv (b : WrfProj) (n : bool) (r : Rotated) :
  rotated_attrs b n = Ok r ->
  _north r = n /\
  exists s, stand_lon b = Some s /\
            _cart_pole_lon r = Some (if n then - s - 180 else - s).
Proof.
  unfold rotated_attrs.
  destruct (pole_lat b) as [pl|], (stand_lon b) as [s|], n,
    (moad_cen_lat b) as [m|]; simpl; intros [= <-]; simpl; eauto.
Qed.

(** The attribute block returns exactly when its operands are numbers. *)
Lemma rotated_attrs_ok (b : WrfProj) (n : bool) :
  constructible CRotatedLatLon b -> exists r, rotated_attrs b n = Ok r.
Proof.
  unfold constructible, rotated_attrs. intros [Hs Hp].
  destruct (stand_lon b) as [s|]; [|contradiction].
  destruct (pole_lat b) as [pl|].
  - destruct n; simpl; eauto.
  - destruct Hp as [Hp|Hp]; [contradiction|].
    destruct (moad_cen_lat b) as [m|]; [|contradiction].
    destruct n; simpl; eauto.
Qed.

Lemma rotated_attrs_raise (b : WrfProj) (n : bool) :
  ~ constructible CRotatedLatLon b -> rotated_attrs b n = Raise TypeError.
Proof.
  unfold constructible, rotated_attrs. intros H.
  destruct (pole_lat b) as [pl|], (stand_lon b) as [s|],
    (moad_cen_lat b) as [m|], n; simpl; try reflexivity;
    exfalso; apply H; split; auto; discriminate.
Qed.

Lemma RotatedLatLon_init_ok bl tr lats lons kw c :
  corner_points bl tr lats lons = Ok c ->
  constructible CRotatedLatLon (base_attrs c kw) ->
  exists r, RotatedLatLon_init bl tr lats lons kw
            = Ok (RotatedLatLon (base_attrs c kw) r).
Proof.
  intros Hc Hk. unfold RotatedLatLon_init.
  rewrite (WrfProj_init_ok _ _ _ _ kw _ Hc). simpl.
  destruct (rotated_north_spec (base_attrs c kw)) as (n & -> & _). simpl.
  destruct (rotated_attrs_ok _ n Hk) as (r & ->). simpl. eauto.
Qed.

Lemma RotatedLatLon_init_inv bl tr lats lons kw p :
  RotatedLatLon_init bl tr lats lons kw = Ok p ->
  exists c n r,
    corner_points bl tr lats lons = Ok c /\
    rotated_north (base_attrs c kw) = Ok n /\
    rotated_attrs (base_attrs c kw) n = Ok r /\
    p = RotatedLatLon (base_attrs c kw) r.
Proof.
  unfold RotatedLatLon_init, WrfProj_init.
  destruct (corner_points bl tr lats lons) as [c|e]; simpl; [|discriminate].
  destruct (rotated_north (base_attrs c kw)) as [n|e] eqn:Hn; simpl;
    [|discriminate].
  destruct (rotated_attrs (base_attrs c kw) n) as [r|e] eqn:Hr; simpl;
    [|discriminate].
  intros [= <-]. exists c, n, r. repeat split; assumption.
Qed.

(** ** Constructors *)

Lemma init_of_raise cls bl tr lats lons kw e :
  corner_points bl tr lats lons = Raise e ->
  init_of cls bl tr lats lons kw = Raise e.
Proof.
  intros H.
  destruct cls; simpl;
    unfold Base_init, LambertConformal_init, Mercator_init,
      PolarStereographic_init, LatLon_init, RotatedLatLon_init;
    rewrite (WrfProj_init_raise _ _ _ _ kw _ H); reflexivity.
Qed.

(** With valid corners a constructor returns an object of its class as soon
    as the numbers it computes with are present. *)
Lemma init_of_ok cls bl tr lats lons kw c :
  corner_points bl tr lats lons = Ok c ->
  constructible cls (base_attrs c kw) ->
  exists p, init_of cls bl tr lats lons kw = Ok p /\
            class_of p = cls /\ base_of p = base_attrs c kw.
Proof.
  intros Hc Hk. destruct cls; simpl.
  - unfold Base_init. rewrite (WrfProj_init_ok _ _ _ _ kw _ Hc). simpl. eauto.
  - unfold LambertConformal_init.
    rewrite (WrfProj_init_ok _ _ _ _ kw _ Hc). simpl. eauto.
  - unfold Mercator_init.
    rewrite (WrfProj_init_ok _ _ _ _ kw _ Hc). simpl. eauto.
  - unfold PolarStereographic_init.
    rewrite (WrfProj_init_ok _ _ _ _ kw _ Hc).
    unfold constructible in Hk. generalize dependent (base_attrs c kw).
    intros b Hk. simpl.
    destruct (truelat1 b) as [t|]; [|contradiction].
    simpl. eauto.
  - unfold LatLon_init.
    rewrite (WrfProj_init_ok _ _ _ _ kw _ Hc). simpl. eauto.
  - destruct (RotatedLatLon_init_ok bl tr lats lons kw c Hc Hk) as (r & ->).
    eauto.
Qed.

(** With valid corners a constructor whose numbers are absent raises
    [TypeError]. *)
Lemma init_of_type_error cls bl tr lats lons kw c :
  corner_points bl tr lats lons = Ok c ->
  ~ constructible cls (base_attrs c kw) ->
  init_of cls bl tr lats lons kw = Raise TypeError.
Proof.
  intros Hc Hk. destruct cls; try (exfalso; apply Hk; exact I);
    unfold init_of.
  - unfold PolarStereographic_init.
    rewrite (WrfProj_init_ok _ _ _ _ kw _ Hc).
    unfold constructible in Hk.
    generalize dependent (base_attrs c kw). intros b Hk. simpl.
    destruct (truelat1 b) as [t|]; [|reflexivity].
    exfalso. apply Hk. discriminate.
  - unfold RotatedLatLon_init.
    rewrite (WrfProj_init_ok _ _ _ _ kw _ Hc). simpl.
    destruct (rotated_north_spec (base_attrs c kw)) as (n & -> & _). simpl.
    rewrite (rotated_attrs_raise _ n Hk). reflexivity.
Qed.

Lemma Base_extent_only (b : WrfProj) : extent_only (Base b).
Proof. intros R ngl bm cart res tp. simpl. repeat split; reflexivity. Qed.

(** ** The factory *)

Lemma codes_wf_distinct (T : ProjectionTypes) :
  codes_wf T ->
  ZERO T = 0%Z /\
  LAMBERT_CONFORMAL T <> POLAR_STEREOGRAPHIC T /\
  LAMBERT_CONFORMAL T <> MERCATOR T /\
  LAMBERT_CONFORMAL T <> ZERO T /\
  LAMBERT_CONFORMAL T <> LAT_LON T /\
  POLAR_STEREOGRAPHIC T <> MERCATOR T /\
  POLAR_STEREOGRAPHIC T <> ZERO T /\
  POLAR_STEREOGRAPHIC T <> LAT_LON T /\
  MERCATOR T <> ZERO T /\
  MERCATOR T <> LAT_LON T.
Proof.
  intros [Hz Hnd].
  repeat match goal with
         | H : NoDup (_ :: _) |- _ => apply NoDup_cons in H as [? ?]
         | H : _ ∉ _ :: _ |- _ => apply not_elem_of_cons in H as [? ?]
         end.
  repeat split; congruence.
Qed.

(** A type code equal to 0 or to the lat-lon code is none of the codes
    tested before them. *)
Lemma zero_or_latlon_code (v : pyval) (latlon other : Z) :
  is_num v 0 \/ is_num v (inject_Z latlon) ->
  other <> 0%Z -> other <> latlon ->
  py_eq v (inject_Z other) = false.
Proof.
  intros [H|H] H0 Hl; apply py_eq_true in H.
  - apply (py_eq_codes v 0%Z other H). auto.
  - apply (py_eq_codes v latlon other H). auto.
Qed.

(** The conditional chain of [getproj] calls the constructor of the class
    the table prescribes. *)
Lemma getproj_init_of T bl tr lats lons kw cls :
  codes_wf T ->
  prescribed T (type_code kw)
    (get (dict_keys_to_upper kw) "POLE_LAT" None)
    (get (dict_keys_to_upper kw) "POLE_LON" None) cls ->
  getproj T bl tr lats lons kw = init_of cls bl tr lats lons kw.
Proof.
  intros Hwf Hp. apply codes_wf_distinct in Hwf.
  destruct Hwf as (Hz & HLP & HLM & HLZ & HLL & HPM & HPZ & HPL & HMZ & HML).
  unfold getproj. fold (type_code kw). rewrite Hz. rewrite Hz in HLZ, HPZ, HMZ.
  change (inject_Z 0) with 0.
  destruct Hp as [H|H|H|H Hlat Hlon|H Hpole|HL HP HM HZ HLL'].
  - apply py_eq_true in H. rewrite H. reflexivity.
  - apply py_eq_true in H.
    rewrite (py_eq_codes _ _ _ H (not_eq_sym HLP)), H. reflexivity.
  - apply py_eq_true in H.
    rewrite (py_eq_codes _ _ _ H (not_eq_sym HLM)),
      (py_eq_codes _ _ _ H (not_eq_sym HPM)), H. reflexivity.
  - rewrite (zero_or_latlon_code _ _ _ H HLZ HLL),
      (zero_or_latlon_code _ _ _ H HPZ HPL),
      (zero_or_latlon_code _ _ _ H HMZ HML).
    assert (Hc : py_eq (type_code kw) 0 || py_eq (type_code kw)
                   (inject_Z (LAT_LON T)) = true).
    { apply orb_true_iff. destruct H as [H|H]; apply py_eq_true in H; auto. }
    rewrite Hc. apply py_eq_true in Hlat, Hlon. rewrite Hlat, Hlon.
    reflexivity.
  - rewrite (zero_or_latlon_code _ _ _ H HLZ HLL),
      (zero_or_latlon_code _ _ _ H HPZ HPL),
      (zero_or_latlon_code _ _ _ H HMZ HML).
    assert (Hc : py_eq (type_code kw) 0 || py_eq (type_code kw)
                   (inject_Z (LAT_LON T)) = true).
    { apply orb_true_iff. destruct H as [H|H]; apply py_eq_true in H; auto. }
    rewrite Hc.
    destruct (py_eq (get (dict_keys_to_upper kw) "POLE_LAT" None) 90) eqn:E1;
      [|reflexivity].
    destruct (py_eq (get (dict_keys_to_upper kw) "POLE_LON" None) 0) eqn:E2;
      [|reflexivity].
    exfalso. apply Hpole. split; apply py_eq_true; assumption.
  - apply py_eq_false in HL, HP, HM, HZ, HLL'.
    rewrite HL, HP, HM, HZ, HLL'. reflexivity.
Qed.

Lemma init_of_inv cls bl tr lats lons kw p :
  init_of cls bl tr lats lons kw = Ok p ->
  exists c, corner_points bl tr lats lons = Ok c /\
            class_of p = cls /\ base_of p = base_attrs c kw.
Proof.
  destruct (corner_points bl tr lats lons) as [c|e] eqn:Hc.
  - intros H. exists c. split; [reflexivity|].
    destruct cls; unfold init_of in H.
    + unfold Base_init in H. rewrite (WrfProj_init_ok _ _ _ _ kw _ Hc) in H.
      injection H as <-. auto.
    + unfold LambertConformal_init in H.
      rewrite (WrfProj_init_ok _ _ _ _ kw _ Hc) in H.
      injection H as <-. auto.
    + unfold Mercator_init in H.
      rewrite (WrfProj_init_ok _ _ _ _ kw _ Hc) in H.
      injection H as <-. auto.
    + unfold PolarStereographic_init in H.
      rewrite (WrfProj_init_ok _ _ _ _ kw _ Hc) in H.
      generalize dependent (base_attrs c kw). intros b H. simpl in H.
      destruct (py_lt (truelat1 b) 0); simpl in H; [|discriminate].
      injection H as <-. auto.
    + unfold LatLon_init in H. rewrite (WrfProj_init_ok _ _ _ _ kw _ Hc) in H.
      injection H as <-. auto.
    + apply RotatedLatLon_init_inv in H as (c' & n & r & Hc' & _ & _ & ->).
      rewrite Hc in Hc'. injection Hc' as <-. auto.
  - rewrite (init_of_raise cls _ _ _ _ kw _ Hc). discriminate.
Qed.

Lemma is_num_dec (v : pyval) (c : Q) : is_num v c \/ ~ is_num v c.
Proof.
  destruct (py_eq v c) eqn:E.
  - left. now apply py_eq_true.
  - right. now apply py_eq_false.
Qed.

Lemma is_num_refl (q : Q) : is_num (Some q) q.
Proof. exists q. split; [reflexivity | apply Qeq_refl]. Qed.

(** C1 (amended).  For every parameter bag and valid corner input on which
    the numeric attributes the selected constructor computes with are present
    (TRUELAT1 for PolarStereographic; for RotatedLatLon a standard longitude
    together with a pole latitude or a centre latitude), [getproj] returns an
    object of the class the dispatch table prescribes for the bag's type
    code and pole position, built from these corners and this bag; for an
    unrecognised code that object is of the base class and offers its extent
    only. *)
Theorem getproj_dispatch T bl tr lats lons kw c cls :
  codes_wf T ->
  corner_points bl tr lats lons = Ok c ->
  prescribed T (type_code kw)
    (get (dict_keys_to_upper kw) "POLE_LAT" None)
    (get (dict_keys_to_upper kw) "POLE_LON" None) cls ->
  constructible cls (base_attrs c kw) ->
  exists p, getproj T bl tr lats lons kw = Ok p /\
            class_of p = cls /\
            base_of p = base_attrs c kw /\
            (cls = CWrfProj -> extent_only p).
Proof.
  intros Hwf Hc Hp Hk.
  rewrite (getproj_init_of T bl tr lats lons kw cls Hwf Hp).
  destruct (init_of_ok cls bl tr lats lons kw c Hc Hk) as (p & Hi & Hcl & Hb).
  exists p. split; [exact Hi|]. split; [exact Hcl|]. split; [exact Hb|].
  intros Hbase. rewrite Hbase in Hcl.
  destruct p; try discriminate. apply Base_extent_only.
Qed.

(** C10 (amended).  When no key of the bag upper-cases to MAP_PROJ,
    [getproj] takes the type code to be 0 and calls the LatLon or the
    RotatedLatLon constructor, never the base one: whatever it returns is of
    one of these two classes and stores [None] as its [map_proj].  With valid
    corners it returns a LatLon object when the pole latitude is 90 and the
    pole longitude 0, and otherwise a RotatedLatLon object provided the
    numbers that constructor computes with are present. *)
Theorem getproj_without_map_proj T bl tr lats lons kw :
  codes_wf T ->
  Forall (fun kv => upper (fst kv) <> "MAP_PROJ") kw ->
  let plat := get (dict_keys_to_upper kw) "POLE_LAT" None in
  let plon := get (dict_keys_to_upper kw) "POLE_LON" None in
  type_code kw = Some 0 /\
  (forall p, getproj T bl tr lats lons kw = Ok p ->
             (class_of p = CLatLon \/ class_of p = CRotatedLatLon) /\
             map_proj (base_of p) = None) /\
  (forall c, corner_points bl tr lats lons = Ok c ->
     (is_num plat 90 /\ is_num plon 0 ->
      exists p, getproj T bl tr lats lons kw = Ok p /\
                class_of p = CLatLon /\ map_proj (base_of p) = None) /\
     (~ (is_num plat 90 /\ is_num plon 0) ->
      constructible CRotatedLatLon (base_attrs c kw) ->
      exists p, getproj T bl tr lats lons kw = Ok p /\
                class_of p = CRotatedLatLon /\ map_proj (base_of p) = None)).
Proof.
  intros Hwf Hno plat plon.
  pose proof (dict_keys_to_upper_absent _ _ Hno) as Habs.
  assert (Hcode : type_code kw = Some 0).
  { unfold type_code. now apply get_absent. }
  assert (Hmp : forall c, map_proj (base_attrs c kw) = None).
  { intros c. simpl. now apply get_absent. }
  assert (Hzero : is_num (type_code kw) 0 \/
                  is_num (type_code kw) (inject_Z (LAT_LON T))).
  { left. rewrite Hcode. apply is_num_refl. }
  assert (Hlatlon : is_num plat 90 /\ is_num plon 0 ->
            getproj T bl tr lats lons kw = init_of CLatLon bl tr lats lons kw).
  { intros [H1 H2]. apply getproj_init_of; [assumption|].
    now apply prescribed_latlon. }
  assert (Hrot : ~ (is_num plat 90 /\ is_num plon 0) ->
            getproj T bl tr lats lons kw
            = init_of CRotatedLatLon bl tr lats lons kw).
  { intros H. apply getproj_init_of; [assumption|].
    now apply prescribed_rotated. }
  split; [exact Hcode|]. split.
  - intros p Hp.
    destruct (is_num_dec plat 90) as [H1|H1];
      [destruct (is_num_dec plon 0) as [H2|H2]|].
    + rewrite (Hlatlon (conj H1 H2)) in Hp.
      apply init_of_inv in Hp as (c & _ & Hcl & ->). auto.
    + rewrite Hrot in Hp by tauto.
      apply init_of_inv in Hp as (c & _ & Hcl & ->). auto.
    + rewrite Hrot in Hp by tauto.
      apply init_of_inv in Hp as (c & _ & Hcl & ->). auto.
  - intros c Hc. split.
    + intros H. rewrite (Hlatlon H).
      destruct (init_of_ok CLatLon bl tr lats lons kw c Hc I)
        as (p & Hi & Hcl & Hb).
      exists p. rewrite Hb. auto.
    + intros H Hk. rewrite (Hrot H).
      destruct (init_of_ok CRotatedLatLon bl tr lats lons kw c Hc Hk)
        as (p & Hi & Hcl & Hb).
      exists p. rewrite Hb. auto.
Qed.

Lemma wrf_codes_wf : codes_wf wrf_codes.
Proof.
  split; [reflexivity|]. apply (bool_decide_unpack _). vm_compute. exact I.
Defined.

(** A computed value is the number it shows. *)
Ltac is_num_compute :=
  match goal with
  | |- is_num _ _ => eexists; split; [vm_compute; reflexivity | reflexivity]
  end.

(** A computed value is not the number asked for. *)
Ltac not_num_compute H :=
  let q := fresh "q" in
  let Hq := fresh "Hq" in
  let Heq := fresh "Heq" in
  destruct H as (q & Hq & Heq); vm_compute in Hq;
  first [ discriminate Hq
        | injection Hq as <-; vm_compute in Heq; discriminate Heq ].

Lemma getproj_dispatch_witness :
  codes_wf wrf_codes /\
  corner_points (Some sw_corner) (Some ne_corner) None None
    = Ok sample_corners /\
  prescribed wrf_codes (type_code rotated_bag)
    (get (dict_keys_to_upper rotated_bag) "POLE_LAT" None)
    (get (dict_keys_to_upper rotated_bag) "POLE_LON" None) CRotatedLatLon /\
  constructible CRotatedLatLon (base_attrs sample_corners rotated_bag) /\
  exists p, getproj wrf_codes (Some sw_corner) (Some ne_corner) None None
              rotated_bag = Ok p /\
            class_of p = CRotatedLatLon /\
            base_of p = base_attrs sample_corners rotated_bag /\
            (CRotatedLatLon = CWrfProj -> extent_only p).
Proof.
  assert (Hp : prescribed wrf_codes (type_code rotated_bag)
    (get (dict_keys_to_upper rotated_bag) "POLE_LAT" None)
    (get (dict_keys_to_upper rotated_bag) "POLE_LON" None) CRotatedLatLon).
  { apply prescribed_rotated.
    - right. is_num_compute.
    - intros [H _]. not_num_compute H. }
  assert (Hk : constructible CRotatedLatLon
                 (base_attrs sample_corners rotated_bag)).
  { split; [|left]; vm_compute; discriminate. }
  split; [exact wrf_codes_wf|]. split; [reflexivity|].
  split; [exact Hp|]. split; [exact Hk|].
  exact (getproj_dispatch wrf_codes (Some sw_corner) (Some ne_corner)
           None None rotated_bag sample_corners CRotatedLatLon
           wrf_codes_wf eq_refl Hp Hk).
Defined.

(** C1 as stated fails: on an empty bag with valid corners the table
    prescribes RotatedLatLon (code 0, no pole given), and [getproj] raises
    [TypeError] instead of returning an object. *)
Lemma getproj_dispatch_counterexample :
  corner_points (Some sw_corner) (Some ne_corner) None None
    = Ok sample_corners /\
  prescribed wrf_codes (type_code [])
    (get (dict_keys_to_upper []) "POLE_LAT" None)
    (get (dict_keys_to_upper []) "POLE_LON" None) CRotatedLatLon /\
  getproj wrf_codes (Some sw_corner) (Some ne_corner) None None []
    = Raise TypeError /\
  ~ exists p, getproj wrf_codes (Some sw_corner) (Some ne_corner) None None []
              = Ok p /\ class_of p = CRotatedLatLon.
Proof.
  split; [reflexivity|]. split.
  - apply prescribed_rotated.
    + left. is_num_compute.
    + intros [H _]. not_num_compute H.
  - split; [vm_compute; reflexivity|].
    intros (p & Hp & _). vm_compute in Hp. discriminate Hp.
Qed.

Lemma getproj_without_map_proj_witness :
  codes_wf wrf_codes /\
  Forall (fun kv => upper (fst kv) <> "MAP_PROJ") latlon_bag /\
  exists p, getproj wrf_codes (Some sw_corner) (Some ne_corner) None None
              latlon_bag = Ok p /\
            class_of p = CLatLon /\ map_proj (base_of p) = None.
Proof.
  assert (Hno : Forall (fun kv => upper (fst kv) <> "MAP_PROJ") latlon_bag).
  { repeat constructor; vm_compute; discriminate. }
  split; [exact wrf_codes_wf|]. split; [exact Hno|].
  destruct (getproj_without_map_proj wrf_codes (Some sw_corner)
              (Some ne_corner) None None latlon_bag wrf_codes_wf Hno)
    as (_ & _ & H).
  destruct (H sample_corners eq_refl) as [Hlatlon _].
  apply Hlatlon. split; is_num_compute.
Defined.

(** C10 as stated fails: a bag that only gives STAND_LON has no MAP_PROJ
    key, and [getproj] raises [TypeError] rather than returning a LatLon or
    RotatedLatLon object. *)
Lemma getproj_without_map_proj_counterexample :
  Forall (fun kv => upper (fst kv) <> "MAP_PROJ") stand_lon_only_bag /\
  corner_points (Some sw_corner) (Some ne_corner) None None
    = Ok sample_corners /\
  getproj wrf_codes (Some sw_corner) (Some ne_corner) None None
    stand_lon_only_bag = Raise TypeError /\
  ~ exists p, getproj wrf_codes (Some sw_corner) (Some ne_corner) None None
                stand_lon_only_bag = Ok p.
Proof.
  split; [repeat constructor; vm_compute; discriminate|].
  split; [reflexivity|]. split; [vm_compute; reflexivity|].
  intros (p & Hp). vm_compute in Hp. discriminate Hp.
Qed.

(** ** RotatedLatLon *)

(** C2 (amended).  The hemisphere block of every RotatedLatLon construction
    returns a flag and never raises.  The flag is southern exactly when the
    pole longitude is supplied and equals 0, or is supplied, is neither 0 nor
    180 and the MOAD centre latitude is known and negative, or is absent and
    the MOAD centre latitude is known and negative; a supplied pole longitude
    of 180 gives the northern hemisphere whatever the centre latitude.  Every
    constructed RotatedLatLon object stores this flag. *)
Theorem rotated_hemisphere :
  (forall b : WrfProj,
     exists n, rotated_north b = Ok n /\
               (n = false <-> southern (pole_lon b) (moad_cen_lat b))) /\
  (forall bl tr lats lons kw p,
     RotatedLatLon_init bl tr lats lons kw = Ok p ->
     exists b r, p = RotatedLatLon b r /\
                 (_north r = false <->
                  southern (pole_lon b) (moad_cen_lat b)) /\
                 (is_num (pole_lon b) 180 -> _north r = true)).
Proof.
  split; [exact rotated_north_spec|].
  intros bl tr lats lons kw p Hp.
  apply RotatedLatLon_init_inv in Hp as (c & n & r & _ & Hn & Hr & ->).
  exists (base_attrs c kw), r. split; [reflexivity|].
  apply rotated_attrs_inv in Hr as [-> _].
  destruct (rotated_north_spec (base_attrs c kw)) as (n' & Hn' & Hiff).
  rewrite Hn in Hn'. injection Hn' as <-. split; [exact Hiff|].
  intros H180. destruct n; [reflexivity|]. exfalso.
  destruct Hiff as [Hs _]. specialize (Hs eq_refl).
  destruct H180 as (q & Hq & Heq).
  destruct Hs as [(q0 & Hq0 & Heq0)|[(_ & _ & Hn180 & _)|(Hnone & _)]].
  - rewrite Hq in Hq0. injection Hq0 as <-.
    rewrite Heq in Heq0. discriminate Heq0.
  - apply Hn180. exists q. auto.
  - rewrite Hq in Hnone. discriminate Hnone.
Qed.

Lemma rotated_hemisphere_witness :
  exists b r,
    RotatedLatLon_init (Some sw_corner) (Some ne_corner) None None
      northern_bag = Ok (RotatedLatLon b r) /\
    (_north r = false <-> southern (pole_lon b) (moad_cen_lat b)) /\
    _north r = true.
Proof.
  destruct rotated_hemisphere as [_ H].
  destruct (H (Some sw_corner) (Some ne_corner) None None northern_bag
              (RotatedLatLon (base_attrs sample_corners northern_bag)
                 {| _north := true;
                    _pyngl_cen_lat := Some (90 - 54);
                    _pyngl_cen_lon := Some (- 10);
                    _bm_lon_0 := Some (- 10);
                    _bm_cart_pole_lat := Some 54;
                    _cart_pole_lon := Some (- 10 - 180) |})
              eq_refl)
    as (b & r & Heq & Hiff & H180).
  exists b, r. injection Heq as <- <-.
  split; [reflexivity|]. split; [exact Hiff|reflexivity].
Defined.

(** C2 as stated fails: with a pole longitude of 180 and a negative MOAD
    centre latitude the listed priority order says southern, and the
    constructed object is northern. *)
Lemma rotated_hemisphere_counterexample :
  exists b r,
    RotatedLatLon_init (Some sw_corner) (Some ne_corner) None None
      north180_bag = Ok (RotatedLatLon b r) /\
    pole_lon b = Some 180 /\ moad_cen_lat b = Some (-10) /\
    southern_as_listed (pole_lon b) (moad_cen_lat b) /\
    _north r = true.
Proof.
  eexists _, _. split; [vm_compute; reflexivity|].
  split; [reflexivity|]. split; [reflexivity|]. split; [|reflexivity].
  right. right. split.
  - right. eexists. split; reflexivity.
  - eexists. split; reflexivity.
Qed.

(** C8.  Every constructed RotatedLatLon object has a numeric standard
    longitude [s], and its dateline longitude is [- s - 180] when it is
    northern and [- s] when it is southern.  With POLE_LAT 36, POLE_LON 0 and
    STAND_LON -106 the construction returns (given valid corners) a southern
    object whose dateline longitude is 106. *)
Theorem rotated_dateline :
  (forall bl tr lats lons kw p,
     RotatedLatLon_init bl tr lats lons kw = Ok p ->
     exists b r s,
       p = RotatedLatLon b r /\ stand_lon b = Some s /\
       (_north r = true -> _cart_pole_lon r = Some (- s - 180)) /\
       (_north r = false -> _cart_pole_lon r = Some (- s))) /\
  (forall bl tr lats lons kw c,
     corner_points bl tr lats lons = Ok c ->
     get (dict_keys_to_upper kw) "POLE_LAT" None = Some 36 ->
     get (dict_keys_to_upper kw) "POLE_LON" None = Some 0 ->
     get (dict_keys_to_upper kw) "STAND_LON" None = Some (-106) ->
     exists b r,
       RotatedLatLon_init bl tr lats lons kw = Ok (RotatedLatLon b r) /\
       _north r = false /\ _cart_pole_lon r = Some 106).
Proof.
  split.
  - intros bl tr lats lons kw p Hp.
    apply RotatedLatLon_init_inv in Hp as (c & n & r & _ & _ & Hr & ->).
    apply rotated_attrs_inv in Hr as (Hn & s & Hs & Hd).
    exists (base_attrs c kw), r, s. split; [reflexivity|].
    split; [exact Hs|]. rewrite Hn, Hd. split; intros ->; reflexivity.
  - intros bl tr lats lons kw c Hc Hplat Hplon Hslon.
    unfold RotatedLatLon_init. rewrite (WrfProj_init_ok _ _ _ _ kw _ Hc).
    assert (H1 : pole_lat (base_attrs c kw) = Some 36) by exact Hplat.
    assert (H2 : pole_lon (base_attrs c kw) = Some 0) by exact Hplon.
    assert (H3 : stand_lon (base_attrs c kw) = Some (-106)).
    { simpl. rewrite Hslon. reflexivity. }
    generalize dependent (base_attrs c kw). intros b H1 H2 H3. simpl.
    unfold rotated_north, rotated_attrs. rewrite H1, H2, H3. simpl.
    eexists _, _. split; [reflexivity|]. split; reflexivity.
Qed.

Lemma rotated_dateline_witness :
  corner_points (Some sw_corner) (Some ne_corner) None None
    = Ok sample_corners /\
  exists b r,
    RotatedLatLon_init (Some sw_corner) (Some ne_corner) None None
      dateline_bag = Ok (RotatedLatLon b r) /\
    _north r = false /\ _cart_pole_lon r = Some 106.
Proof.
  split; [reflexivity|].
  destruct rotated_dateline as [_ H].
  exact (H (Some sw_corner) (Some ne_corner) None None dateline_bag
           sample_corners eq_refl eq_refl eq_refl eq_refl).
Defined.

(** ** LambertConformal *)

(** The stored second true latitude: the bag's value when valid, [None]
    when missing. *)
Lemma base_attrs_truelat2 (c : Corners) (kw : list (string * pyval)) :
  let t2 := get (dict_keys_to_upper kw) "TRUELAT2" None in
  (missing t2 -> truelat2 (base_attrs c kw) = None) /\
  (~ missing t2 -> truelat2 (base_attrs c kw) = t2 /\ t2 <> None).
Proof.
  simpl. split; intros H.
  - apply _ismissing_spec in H. rewrite H. reflexivity.
  - assert (Hn : get (dict_keys_to_upper kw) "TRUELAT2" None <> None).
    { intros E. apply H. left. exact E. }
    apply _ismissing_false in H. rewrite H. auto.
Qed.

Lemma LambertConformal_init_ok bl tr lats lons kw c :
  corner_points bl tr lats lons = Ok c ->
  LambertConformal_init bl tr lats lons kw
  = Ok (LambertConformal (base_attrs c kw)
          match truelat2 (base_attrs c kw) with
          | Some _ => [truelat1 (base_attrs c kw); truelat2 (base_attrs c kw)]
          | None => [truelat1 (base_attrs c kw)]
          end).
Proof.
  intros Hc. unfold LambertConformal_init.
  rewrite (WrfProj_init_ok _ _ _ _ kw _ Hc).
  generalize (base_attrs c kw). intros b. simpl.
  destruct (truelat2 b); reflexivity.
Qed.

(** C3 (amended).  For every LambertConformal object (valid corners): when
    the bag's TRUELAT2 is missing (absent or outside [-90, 90]) the PROJ
    descriptor's [+lat_2] is truelat1 and the CF mapping's
    [standard_parallel] is the one-entry list [truelat1]; when it is valid
    the descriptor's [+lat_2] is that value and [standard_parallel] is
    [truelat1; truelat2]. *)
Theorem lambert_effective_parallel R bl tr lats lons kw c :
  corner_points bl tr lats lons = Ok c ->
  let t2 := get (dict_keys_to_upper kw) "TRUELAT2" None in
  exists b std m4 mcf,
    LambertConformal_init bl tr lats lons kw = Ok (LambertConformal b std) /\
    b = base_attrs c kw /\
    truelat1 b = get (dict_keys_to_upper kw) "TRUELAT1" None /\
    _proj4 R (LambertConformal b std) = Ok (Some m4) /\
    _cf_params R (LambertConformal b std) = Some mcf /\
    (missing t2 ->
     mget "+lat_2" m4 = Some (VNum (truelat1 b)) /\
     mget "standard_parallel" mcf = Some (VList [truelat1 b])) /\
    (~ missing t2 ->
     mget "+lat_2" m4 = Some (VNum t2) /\
     mget "standard_parallel" mcf = Some (VList [truelat1 b; t2])).
Proof.
  intros Hc t2.
  pose proof (LambertConformal_init_ok bl tr lats lons kw c Hc) as Hi.
  destruct (base_attrs_truelat2 c kw) as [Hmiss Hval]. fold t2 in Hmiss, Hval.
  assert (Ht1 : truelat1 (base_attrs c kw)
                = get (dict_keys_to_upper kw) "TRUELAT1" None) by reflexivity.
  generalize dependent (base_attrs c kw). intros b Hi Hm Hv Ht1.
  eexists b, _, _, _. split; [exact Hi|]. split; [reflexivity|].
  split; [exact Ht1|]. split; [reflexivity|]. split; [reflexivity|].
  split; intros H.
  - rewrite (Hm H). simpl. auto.
  - destruct (Hv H) as [E Hn]. rewrite E.
    destruct t2 as [q|] eqn:Et; [|contradiction].
    apply _ismissing_false in H. simpl. simpl in H. rewrite H. auto.
Qed.

Lemma lambert_effective_parallel_witness :
  corner_points (Some sw_corner) (Some ne_corner) None None
    = Ok sample_corners /\
  exists b std m4 mcf,
    LambertConformal_init (Some sw_corner) (Some ne_corner) None None
      lambert_two_bag = Ok (LambertConformal b std) /\
    _proj4 earth_radius (LambertConformal b std) = Ok (Some m4) /\
    _cf_params earth_radius (LambertConformal b std) = Some mcf /\
    mget "+lat_2" m4 = Some (VNum (Some 60)) /\
    mget "standard_parallel" mcf = Some (VList [Some 30; Some 60]).
Proof.
  split; [reflexivity|].
  destruct (lambert_effective_parallel earth_radius (Some sw_corner)
              (Some ne_corner) None None lambert_two_bag sample_corners
              eq_refl)
    as (b & std & m4 & mcf & Hi & Hb & Ht1 & H4 & Hcf & _ & Hval).
  exists b, std, m4, mcf. split; [exact Hi|]. split; [exact H4|].
  split; [exact Hcf|].
  assert (Hnm : ~ missing (get (dict_keys_to_upper lambert_two_bag)
                             "TRUELAT2" None)).
  { apply _ismissing_false. vm_compute. reflexivity. }
  destruct (Hval Hnm) as [E4 Ecf]. rewrite Ht1 in Ecf.
  split; [exact E4 | exact Ecf].
Defined.

(** C3 as stated fails: with TRUELAT2 out of range the CF mapping carries a
    single standard parallel; it has no second entry equal to truelat1. *)
Lemma lambert_effective_parallel_counterexample :
  exists b std mcf,
    LambertConformal_init (Some sw_corner) (Some ne_corner) None None
      lambert_single_bag = Ok (LambertConformal b std) /\
    missing (get (dict_keys_to_upper lambert_single_bag) "TRUELAT2" None) /\
    truelat1 b = Some 30 /\
    _cf_params earth_radius (LambertConformal b std) = Some mcf /\
    mget "standard_parallel" mcf = Some (VList [Some 30]) /\
    cf_second_parallel mcf = None /\
    cf_second_parallel mcf <> Some (truelat1 b).
Proof.
  eexists _, _, _. split; [vm_compute; reflexivity|].
  split; [apply _ismissing_spec; vm_compute; reflexivity|].
  split; [reflexivity|]. split; [reflexivity|].
  split; [reflexivity|]. split; [reflexivity|]. discriminate.
Qed.

(** C4 (amended).  For every LambertConformal object (valid corners): the
    basemap keywords carry the object's truelat2 attribute as it is stored
    ([None] when the bag's TRUELAT2 is missing, the bag's value when valid),
    whereas the PyNGL builder, in every resource set it completes, sets
    mpLambertParallel2F to truelat1 when TRUELAT2 is missing and to truelat2
    when it is valid; it completes one whenever the builtin [bytes] accepts
    its string literals. *)
Theorem lambert_toolkit_parallel R bl tr lats lons kw c resolution :
  corner_points bl tr lats lons = Ok c ->
  let t2 := get (dict_keys_to_upper kw) "TRUELAT2" None in
  exists b std mbm,
    LambertConformal_init bl tr lats lons kw = Ok (LambertConformal b std) /\
    b = base_attrs c kw /\
    _basemap R true (LambertConformal b std) resolution = Some mbm /\
    mget "lat_2" mbm = Some (VNum (truelat2 b)) /\
    (missing t2 -> truelat2 b = None) /\
    (~ missing t2 -> truelat2 b = t2) /\
    (forall bytes mngl,
       _pyngl_on true bytes (LambertConformal b std) = Ok (Some mngl) ->
       (missing t2 ->
        mget "mpLambertParallel2F" mngl = Some (VNum (truelat1 b))) /\
       (~ missing t2 ->
        mget "mpLambertParallel2F" mngl = Some (VNum t2))) /\
    (exists mngl,
       _pyngl_on true (fun s => Ok s) (LambertConformal b std)
       = Ok (Some mngl)).
Proof.
  intros Hc t2.
  pose proof (LambertConformal_init_ok bl tr lats lons kw c Hc) as Hi.
  destruct (base_attrs_truelat2 c kw) as [Hmiss Hval]. fold t2 in Hmiss, Hval.
  generalize dependent (base_attrs c kw). intros b Hi Hm Hv.
  eexists b, _, _. split; [exact Hi|]. split; [reflexivity|].
  split; [reflexivity|]. split; [reflexivity|].
  split; [exact Hm|]. split; [intros H; exact (proj1 (Hv H))|].
  split; [|eexists; reflexivity].
  intros bytes mngl. unfold _pyngl_on, pyngl_resources. simpl.
  destruct (bytes "LambertConformal") as [s1|e1]; simpl; [|discriminate].
  destruct (bytes "MediumRes") as [s2|e2]; simpl; [|discriminate].
  destruct (bytes "Corners") as [s3|e3]; simpl; [|discriminate].
  intros [= <-]. simpl. split; intros H.
  - rewrite (Hm H). reflexivity.
  - destruct (Hv H) as [E Hn]. rewrite E.
    apply _ismissing_false in H. rewrite H. reflexivity.
Qed.

Lemma lambert_toolkit_parallel_witness :
  corner_points (Some sw_corner) (Some ne_corner) None None
    = Ok sample_corners /\
  exists b std mbm mngl,
    LambertConformal_init (Some sw_corner) (Some ne_corner) None None
      lambert_single_bag = Ok (LambertConformal b std) /\
    _basemap earth_radius true (LambertConformal b std) "l" = Some mbm /\
    mget "lat_2" mbm = Some (VNum None) /\
    _pyngl_on true (fun s => Ok s) (LambertConformal b std)
    = Ok (Some mngl) /\
    mget "mpLambertParallel2F" mngl = Some (VNum (Some 30)).
Proof.
  split; [reflexivity|].
  destruct (lambert_toolkit_parallel earth_radius (Some sw_corner)
              (Some ne_corner) None None lambert_single_bag sample_corners
              "l" eq_refl)
    as (b & std & mbm & Hi & Hb & Hbm & E2 & Hmiss & _ & Hngl & mngl & Hex).
  exists b, std, mbm, mngl. split; [exact Hi|]. split; [exact Hbm|].
  assert (Hm : missing (get (dict_keys_to_upper lambert_single_bag)
                          "TRUELAT2" None)).
  { apply _ismissing_spec. vm_compute. reflexivity. }
  rewrite (Hmiss Hm) in E2. split; [exact E2|]. split; [exact Hex|].
  destruct (Hngl _ mngl Hex) as [Hsub _].
  rewrite (Hsub Hm), Hb. reflexivity.
Defined.

(** C4 as stated fails: with TRUELAT2 missing, no PyNGL resource set carries
    the (absent) truelat2.  As run, the builder raises [TypeError] at its
    first [bytes("...")] and returns nothing; and the value it prepares for
    mpLambertParallel2F, which a [bytes] accepting a [str] lets it store, is
    truelat1. *)
Lemma lambert_toolkit_parallel_counterexample :
  exists b std mngl,
    LambertConformal_init (Some sw_corner) (Some ne_corner) None None
      lambert_single_bag = Ok (LambertConformal b std) /\
    truelat1 b = Some 30 /\ truelat2 b = None /\
    _pyngl true (LambertConformal b std) = Raise TypeError /\
    _pyngl_on true (fun s => Ok s) (LambertConformal b std)
    = Ok (Some mngl) /\
    mget "mpLambertParallel2F" mngl = Some (VNum (Some 30)) /\
    mget "mpLambertParallel2F" mngl <> Some (VNum (truelat2 b)).
Proof.
  eexists _, _, _. split; [vm_compute; reflexivity|].
  split; [reflexivity|]. split; [reflexivity|]. split; [reflexivity|].
  split; [reflexivity|]. split; [reflexivity|]. discriminate.
Qed.

(** ** Corner modes *)

Lemma grid_points_not_value_error (la lo : grid) :
  (lllat <-- grid_first la ;;
   urlat <-- grid_last la ;;
   lllon <-- grid_first lo ;;
   urlon <-- grid_last lo ;;
   Ok {| ll_lat := lllat; ll_lon := lllon; ur_lat := urlat; ur_lon := urlon |})
  <> Raise ValueError.
Proof.
  unfold grid_first, grid_last.
  destruct la as [|[|x row] la']; simpl; try discriminate;
    destruct (last _) as [[|y row']|]; simpl; try discriminate;
    try (destruct (last _); simpl; try discriminate);
    destruct lo as [|[|z row''] lo']; simpl; try discriminate;
    destruct (last _) as [[|w row3]|]; simpl; try discriminate;
    try (destruct (last _); simpl; discriminate).
Qed.

Lemma corner_points_value_error bl tr lats lons :
  corner_points bl tr lats lons = Raise ValueError <->
  ~ (is_Some bl /\ is_Some tr) /\ ~ (is_Some lats /\ is_Some lons).
Proof.
  unfold corner_points. split.
  - intros H. split; intros [[x Hx] [y Hy]]; subst.
    + discriminate H.
    + destruct bl, tr; try discriminate H;
        exact (grid_points_not_value_error _ _ H).
  - intros [H1 H2].
    destruct bl as [b|], tr as [t|];
      try (exfalso; apply H1; split; eexists; reflexivity);
      destruct lats as [la|], lons as [lo|]; try reflexivity;
      exfalso; apply H2; split; eexists; reflexivity.
Qed.

Lemma constructible_dec cls b : constructible cls b \/ ~ constructible cls b.
Proof.
  destruct cls; simpl; auto.
  - destruct (truelat1 b); [left; discriminate | right; auto].
  - destruct (stand_lon b), (pole_lat b), (moad_cen_lat b);
      try (left; split; [discriminate|]; (left + right); discriminate);
      right; intros [H1 [H2|H2]]; congruence.
Qed.

(** A constructor raises what the corner block raised, or [TypeError]. *)
Lemma init_of_raise_inv cls bl tr lats lons kw e :
  init_of cls bl tr lats lons kw = Raise e ->
  corner_points bl tr lats lons = Raise e \/
  ((exists c, corner_points bl tr lats lons = Ok c) /\ e = TypeError).
Proof.
  intros H. destruct (corner_points bl tr lats lons) as [c|e'] eqn:Hc.
  - right. split; [eauto|].
    destruct (constructible_dec cls (base_attrs c kw)) as [Hk|Hk].
    + destruct (init_of_ok cls bl tr lats lons kw c Hc Hk) as (p & Hp & _).
      rewrite Hp in H. discriminate H.
    + rewrite (init_of_type_error cls bl tr lats lons kw c Hc Hk) in H.
      injection H as <-. reflexivity.
  - left. rewrite (init_of_raise cls _ _ _ _ kw _ Hc) in H.
    injection H as <-. reflexivity.
Qed.

(** Whatever the codes, [getproj] ends in one of the six constructors. *)
Lemma getproj_some_init T bl tr lats lons kw :
  exists cls, getproj T bl tr lats lons kw = init_of cls bl tr lats lons kw.
Proof.
  unfold getproj.
  repeat match goal with
         | |- context [if ?b then _ else _] => destruct b
         end;
    first [ exists CLambertConformal; reflexivity
          | exists CPolarStereographic; reflexivity
          | exists CMercator; reflexivity
          | exists CLatLon; reflexivity
          | exists CRotatedLatLon; reflexivity
          | exists CWrfProj; reflexivity ].
Qed.

(** C5 (amended).  The construction of any variant, directly or through
    [getproj], fails with the construction error ([ValueError]) exactly when
    neither corner-supplying mode is given in full: not both [bottom_left]
    and [top_right], and not both [lats] and [lons].  When the explicit pair
    is given, it is used, whether or not grids are given as well. *)
Theorem construction_corner_error cls T bl tr lats lons kw :
  (init_of cls bl tr lats lons kw = Raise ValueError <->
   ~ (is_Some bl /\ is_Some tr) /\ ~ (is_Some lats /\ is_Some lons)) /\
  (getproj T bl tr lats lons kw = Raise ValueError <->
   ~ (is_Some bl /\ is_Some tr) /\ ~ (is_Some lats /\ is_Some lons)) /\
  (forall b t p,
     bl = Some b -> tr = Some t ->
     init_of cls bl tr lats lons kw = Ok p ->
     corners (base_of p) = {| ll_lat := lat b; ll_lon := lon b;
                              ur_lat := lat t; ur_lon := lon t |}).
Proof.
  assert (Hinit : forall cls',
            init_of cls' bl tr lats lons kw = Raise ValueError <->
            ~ (is_Some bl /\ is_Some tr) /\
            ~ (is_Some lats /\ is_Some lons)).
  { intros cls'. rewrite <- corner_points_value_error. split.
    - intros H. apply init_of_raise_inv in H as [H|[_ H]];
        [exact H | discriminate H].
    - apply init_of_raise. }
  split; [apply Hinit|]. split.
  - destruct (getproj_some_init T bl tr lats lons kw) as (cls' & ->).
    apply Hinit.
  - intros b t p -> -> Hp.
    apply init_of_inv in Hp as (c & Hc & _ & ->).
    simpl in Hc. injection Hc as <-. reflexivity.
Qed.

Lemma construction_corner_error_witness :
  init_of CMercator None (Some ne_corner) (Some sample_grid) None mercator_bag
    = Raise ValueError /\
  getproj wrf_codes None (Some ne_corner) (Some sample_grid) None mercator_bag
    = Raise ValueError.
Proof.
  destruct (construction_corner_error CMercator wrf_codes None
              (Some ne_corner) (Some sample_grid) None mercator_bag)
    as ([_ H1] & [_ H2] & _).
  assert (Hn : ~ (is_Some (@None CoordPair) /\ is_Some (Some ne_corner)) /\
               ~ (is_Some (Some sample_grid) /\ is_Some (@None grid))).
  { split; intros [[x Hx] [y Hy]]; discriminate. }
  split; [exact (H1 Hn) | exact (H2 Hn)].
Defined.

(** C5 as stated fails: with both corner modes supplied together the
    construction does not fail; it returns an object built on the explicit
    corner pair. *)
Lemma construction_corner_error_counterexample :
  exists p,
    init_of CMercator (Some sw_corner) (Some ne_corner)
      (Some sample_grid) (Some sample_grid) mercator_bag = Ok p /\
    getproj wrf_codes (Some sw_corner) (Some ne_corner)
      (Some sample_grid) (Some sample_grid) mercator_bag = Ok p /\
    class_of p = CMercator /\
    corners (base_of p) = sample_corners.
Proof.
  eexists. split; [vm_compute; reflexivity|].
  split; [vm_compute; reflexivity|]. split; reflexivity.
Qed.

(** ** Mercator *)

(** C6.  For every Mercator object (valid corners) the true-scale latitude
    is [None] exactly when truelat1 is 0 or invalid (absent, above +90 or
    below -90); otherwise it is truelat1. *)
Theorem mercator_true_scale_latitude bl tr lats lons kw c :
  corner_points bl tr lats lons = Ok c ->
  exists b lat_ts,
    Mercator_init bl tr lats lons kw = Ok (Mercator b lat_ts) /\
    b = base_attrs c kw /\
    truelat1 b = get (dict_keys_to_upper kw) "TRUELAT1" None /\
    (lat_ts = None <-> zero_or_invalid (truelat1 b)) /\
    (~ zero_or_invalid (truelat1 b) -> lat_ts = truelat1 b).
Proof.
  intros Hc. unfold Mercator_init. rewrite (WrfProj_init_ok _ _ _ _ kw _ Hc).
  assert (Ht1 : truelat1 (base_attrs c kw)
                = get (dict_keys_to_upper kw) "TRUELAT1" None) by reflexivity.
  generalize dependent (base_attrs c kw). intros b Ht1. simpl.
  eexists b, _. split; [reflexivity|]. split; [reflexivity|].
  split; [exact Ht1|]. unfold zero_or_invalid.
  destruct (py_eq (truelat1 b) 0) eqn:E0.
  - apply py_eq_true in E0. simpl. split; [tauto|]. intros H. tauto.
  - apply py_eq_false in E0. simpl.
    destruct (_ismissing (truelat1 b)) eqn:Em.
    + apply _ismissing_spec in Em. split; [tauto|]. intros H. tauto.
    + apply _ismissing_false in Em. split; [|reflexivity]. split.
      * intros Hn. right. left. exact Hn.
      * tauto.
Qed.

Lemma mercator_true_scale_latitude_witness :
  corner_points None None (Some sample_grid) (Some sample_grid)
    = Ok {| ll_lat := Some 21; ll_lon := Some 21;
            ur_lat := Some 47; ur_lon := Some 47 |} /\
  exists b,
    Mercator_init None None (Some sample_grid) (Some sample_grid)
      mercator_bag = Ok (Mercator b (Some 20)) /\
    truelat1 b = Some 20.
Proof.
  split; [reflexivity|].
  destruct (mercator_true_scale_latitude None None (Some sample_grid)
              (Some sample_grid) mercator_bag _ eq_refl)
    as (b & lat_ts & Hi & Hb & Ht1 & _ & Hval).
  assert (Hnz : ~ zero_or_invalid (truelat1 b)).
  { rewrite Ht1. intros [H|H].
    - not_num_compute H.
    - apply _ismissing_spec in H. vm_compute in H. discriminate H. }
  exists b. rewrite (Hval Hnz) in Hi. rewrite Ht1 in Hi.
  split; [exact Hi | exact Ht1].
Defined.

(** ** PolarStereographic *)

(** C7.  For every PolarStereographic object (valid corners) whose truelat1
    lies in [-90, 90], the hemisphere origin latitude is exactly -90 when
    truelat1 is negative and exactly +90 otherwise, and the CF mapping's
    [latitude_of_projection_origin] is that value. *)
Theorem polar_hemisphere_origin R bl tr lats lons kw c t :
  corner_points bl tr lats lons = Ok c ->
  get (dict_keys_to_upper kw) "TRUELAT1" None = Some t ->
  -90 <= t -> t <= 90 ->
  exists b hemi lat_ts mcf,
    PolarStereographic_init bl tr lats lons kw
    = Ok (PolarStereographic b hemi lat_ts) /\
    b = base_attrs c kw /\
    (t < 0 -> hemi = -90) /\
    (~ t < 0 -> hemi = 90) /\
    _cf_params R (PolarStereographic b hemi lat_ts) = Some mcf /\
    mget "latitude_of_projection_origin" mcf = Some (VNum (Some hemi)).
Proof.
  intros Hc Ht Hlo Hhi. unfold PolarStereographic_init.
  rewrite (WrfProj_init_ok _ _ _ _ kw _ Hc).
  assert (Ht1 : truelat1 (base_attrs c kw) = Some t) by exact Ht.
  generalize dependent (base_attrs c kw). intros b Ht1. simpl.
  rewrite Ht1. simpl.
  destruct (Qltb t 0) eqn:E; simpl;
    eexists b, _, _, _; (split; [reflexivity|]); (split; [reflexivity|]).
  - apply Qltb_lt in E. split; [reflexivity|].
    split; [intros H; contradiction|]. split; reflexivity.
  - apply Qltb_nlt in E. split; [intros H; contradiction|].
    split; [reflexivity|]. split; reflexivity.
Qed.

Lemma polar_hemisphere_origin_witness :
  corner_points (Some sw_corner) (Some ne_corner) None None
    = Ok sample_corners /\
  get (dict_keys_to_upper polar_bag) "TRUELAT1" None = Some (-71) /\
  -90 <= -71 /\ -71 <= 90 /\
  exists b lat_ts mcf,
    PolarStereographic_init (Some sw_corner) (Some ne_corner) None None
      polar_bag = Ok (PolarStereographic b (-90) lat_ts) /\
    _cf_params earth_radius (PolarStereographic b (-90) lat_ts) = Some mcf /\
    mget "latitude_of_projection_origin" mcf = Some (VNum (Some (-90))).
Proof.
  assert (Hlo : -90 <= -71) by (vm_compute; discriminate).
  assert (Hhi : -71 <= 90) by (vm_compute; discriminate).
  split; [reflexivity|]. split; [reflexivity|].
  split; [exact Hlo|]. split; [exact Hhi|].
  destruct (polar_hemisphere_origin earth_radius (Some sw_corner)
              (Some ne_corner) None None polar_bag sample_corners (-71)
              eq_refl eq_refl Hlo Hhi)
    as (b & hemi & lat_ts & mcf & Hi & _ & Hneg & _ & Hcf & Hget).
  assert (Hh : hemi = -90) by (apply Hneg; vm_compute; reflexivity).
  rewrite Hh in Hi, Hcf, Hget.
  exists b, lat_ts, mcf. auto.
Defined.

(** ** MercatorWithLatTS *)

(** C9 (amended).  In the true-scale Mercator construction, whenever the two
    computed plane x-limits coincide at a value other than 0, the
    sign-correction step yields two distinct final limits: the left one
    strictly negative and the right one strictly positive. *)
Theorem xlimits_sign_correction (limits : (Q * Q) * (Q * Q)) :
  fst (fst limits) == fst (snd limits) ->
  ~ fst (fst limits) == 0 ->
  let m := MercatorWithLatTS_init limits in
  fst (_xlimits m) < 0 /\ 0 < snd (_xlimits m) /\
  ~ fst (_xlimits m) == snd (_xlimits m).
Proof.
  destruct limits as [[x0 y0] [x1 y1]]. simpl. intros Heq Hnz.
  apply Qeq_bool_iff in Heq. rewrite Heq. apply Qeq_bool_iff in Heq.
  assert (Hsign : forall a b : Q, a < 0 -> 0 < b -> ~ a == b).
  { intros a b Ha Hb E. rewrite E in Ha.
    exact (Qlt_irrefl _ (Qlt_trans _ _ _ Hb Ha)). }
  destruct (Qltb x0 0) eqn:E; simpl.
  - apply Qltb_lt in E.
    assert (H1 : 0 < - x1).
    { rewrite <- Heq. apply (Qopp_lt_compat x0 0) in E. exact E. }
    auto.
  - apply Qltb_nlt in E.
    assert (Hpos : 0 < x0).
    { apply Qnot_le_lt. intros Hle. apply Qle_lteq in Hle as [Hlt|He].
      - contradiction.
      - contradiction. }
    assert (H0 : - x0 < 0).
    { apply (Qopp_lt_compat 0 x0) in Hpos. exact Hpos. }
    assert (H1 : 0 < x1) by (rewrite <- Heq; exact Hpos).
    auto.
Qed.

Lemma xlimits_sign_correction_witness :
  20015000 == 20015000 /\ ~ 20015000 == 0 /\
  let m := MercatorWithLatTS_init
             ((20015000, -15496000), (20015000, 18764000)) in
  fst (_xlimits m) < 0 /\ 0 < snd (_xlimits m) /\
  ~ fst (_xlimits m) == snd (_xlimits m).
Proof.
  assert (Hnz : ~ 20015000 == 0) by (vm_compute; discriminate).
  split; [reflexivity|]. split; [exact Hnz|].
  exact (xlimits_sign_correction
           ((20015000, -15496000), (20015000, 18764000))
           (Qeq_refl _) Hnz).
Defined.

(** C9 as stated fails: when both computed x-limits are 0, negating the
    non-negative one changes nothing and the final limits are still equal,
    neither negative nor positive. *)
Lemma xlimits_sign_correction_counterexample :
  let m := MercatorWithLatTS_init ((0, -15496000), (0, 18764000)) in
  _xlimits m = (0, 0) /\
  fst (_xlimits m) == snd (_xlimits m) /\
  ~ fst (_xlimits m) < 0 /\ ~ 0 < snd (_xlimits m).
Proof.
  simpl. split; [reflexivity|]. split; [reflexivity|].
  split; vm_compute; discriminate.
Qed.

(** * Further properties of the module *)

(** ** The bag is read without regard to the case of its keys *)










(** ** Attributes of a constructed object *)

Lemma base_attrs_truelat2_range (c : Corners) (kw : list (string * pyval)) :
  truelat2 (base_attrs c kw) = None \/
  exists q, truelat2 (base_attrs c kw) = Some q /\
            get (dict_keys_to_upper kw) "TRUELAT2" None = Some q /\
            ~ 90 < q /\ ~ q < -90.
Proof.
  simpl. destruct (get (dict_keys_to_upper kw) "TRUELAT2" None) as [q|];
    simpl; [|left; reflexivity].
  destruct (Qltb 90 q) eqn:E1; simpl; [left; reflexivity|].
  destruct (Qltb q (-90)) eqn:E2; simpl; [left; reflexivity|].
  right. exists q. apply Qltb_nlt in E1, E2.
  repeat split; try reflexivity; assumption.
Qed.

(** Whatever [getproj] returns was returned by a constructor, on valid
    corners. *)
Lemma getproj_inv T bl tr lats lons kw p :
  getproj T bl tr lats lons kw = Ok p ->
  exists c, corner_points bl tr lats lons = Ok c /\
            base_of p = base_attrs c kw.
Proof.
  destruct (getproj_some_init T bl tr lats lons kw) as (cls & ->).
  intros H. apply init_of_inv in H as (c & Hc & _ & Hb). eauto.
Qed.

(** X2.  Every object a constructor or the factory returns stores as
    truelat2 either nothing or the bag's TRUELAT2 itself, and then that
    value is neither above 90 nor below -90: a TRUELAT2 above 90 or below
    -90 never reaches the object. *)
Theorem truelat2_never_out_of_range cls T bl tr lats lons kw p :
  init_of cls bl tr lats lons kw = Ok p \/
  getproj T bl tr lats lons kw = Ok p ->
  truelat2 (base_of p) = None \/
  exists q, truelat2 (base_of p) = Some q /\
            get (dict_keys_to_upper kw) "TRUELAT2" None = Some q /\
            ~ 90 < q /\ ~ q < -90.
Proof.
  intros [H|H].
  - apply init_of_inv in H as (c & _ & _ & ->).
    apply base_attrs_truelat2_range.
  - apply getproj_inv in H as (c & _ & ->). apply base_attrs_truelat2_range.
Qed.

Lemma truelat2_never_out_of_range_witness :
  exists p,
    getproj wrf_codes (Some sw_corner) (Some ne_corner) None None
      lambert_single_bag = Ok p /\
    get (dict_keys_to_upper lambert_single_bag) "TRUELAT2" None
      = Some 100 /\
    truelat2 (base_of p) = None.
Proof.
  eexists. split; [vm_compute; reflexivity|]. split; [reflexivity|].
  destruct (truelat2_never_out_of_range CLambertConformal wrf_codes
              (Some sw_corner) (Some ne_corner) None None lambert_single_bag
              _ (or_intror eq_refl)) as [H|(q & H & _)];
    [exact H | discriminate H].
Defined.

(** X3.  Every constructed object takes its MOAD centre latitude from
    MOAD_CEN_LAT and, when that is absent, from CEN_LAT; its standard
    longitude from STAND_LON and, when that is absent, from CEN_LON.  Either
    attribute is [None] only when both of its sources are. *)
Theorem center_fallbacks cls bl tr lats lons kw p :
  init_of cls bl tr lats lons kw = Ok p ->
  let up := dict_keys_to_upper kw in
  let b := base_of p in
  (get up "MOAD_CEN_LAT" None <> None ->
   moad_cen_lat b = get up "MOAD_CEN_LAT" None) /\
  (get up "MOAD_CEN_LAT" None = None ->
   moad_cen_lat b = get up "CEN_LAT" None) /\
  (get up "STAND_LON" None <> None ->
   stand_lon b = get up "STAND_LON" None) /\
  (get up "STAND_LON" None = None ->
   stand_lon b = get up "CEN_LON" None) /\
  (moad_cen_lat b = None <->
   get up "MOAD_CEN_LAT" None = None /\ get up "CEN_LAT" None = None) /\
  (stand_lon b = None <->
   get up "STAND_LON" None = None /\ get up "CEN_LON" None = None).
Proof.
  intros H. apply init_of_inv in H as (c & _ & _ & ->). simpl.
  destruct (get (dict_keys_to_upper kw) "MOAD_CEN_LAT" None) as [m|],
    (get (dict_keys_to_upper kw) "STAND_LON" None) as [s|];
    repeat split; try congruence; try tauto;
    try (intros [? ?]; congruence); intros ?; congruence.
Qed.

Lemma center_fallbacks_witness :
  exists b r,
    RotatedLatLon_init (Some sw_corner) (Some ne_corner) None None
      fallback_bag = Ok (RotatedLatLon b r) /\
    moad_cen_lat b = Some (-34) /\ stand_lon b = Some 151 /\
    _north r = false.
Proof.
  eexists _, _. split; [vm_compute; reflexivity|].
  destruct (center_fallbacks CRotatedLatLon (Some sw_corner) (Some ne_corner)
              None None fallback_bag _ eq_refl)
    as (_ & Hm & _ & Hs & _).
  split; [exact (Hm eq_refl)|]. split; [exact (Hs eq_refl)|]. reflexivity.
Defined.

(** ** Corner modes *)

(** X4.  When the explicit pair is not given in full and both grids are,
    the corners are the first entry of the first row and the last entry of
    the last row of each grid, and a half-given explicit pair is ignored; a
    grid without such entries makes the construction raise [IndexError],
    never the construction error. *)
Theorem grid_corner_points bl tr (la lo : grid) :
  ~ (is_Some bl /\ is_Some tr) ->
  (forall a b x y,
     head la ≫= head = Some a -> last la ≫= last = Some b ->
     head lo ≫= head = Some x -> last lo ≫= last = Some y ->
     corner_points bl tr (Some la) (Some lo)
     = Ok {| ll_lat := Some a; ll_lon := Some x;
             ur_lat := Some b; ur_lon := Some y |}) /\
  (head la ≫= head = None \/ last la ≫= last = None \/
   head lo ≫= head = None \/ last lo ≫= last = None ->
   corner_points bl tr (Some la) (Some lo) = Raise IndexError).
Proof.
  intros Hn.
  assert (Hcp : corner_points bl tr (Some la) (Some lo)
                = (lllat <-- grid_first la ;;
                   urlat <-- grid_last la ;;
                   lllon <-- grid_first lo ;;
                   urlon <-- grid_last lo ;;
                   Ok {| ll_lat := lllat; ll_lon := lllon;
                         ur_lat := urlat; ur_lon := urlon |})).
  { unfold corner_points. destruct bl, tr; try reflexivity.
    exfalso. apply Hn. split; eexists; reflexivity. }
  assert (Hf : forall g : grid,
            grid_first g = match head g ≫= head with
                           | Some v => Ok (Some v)
                           | None => Raise IndexError
                           end).
  { intros [|[|v row] g]; reflexivity. }
  assert (Hl : forall g : grid,
            grid_last g = match last g ≫= last with
                          | Some v => Ok (Some v)
                          | None => Raise IndexError
                          end).
  { intros g. unfold grid_last. destruct (last g) as [row|]; simpl;
      [destruct (last row); reflexivity | reflexivity]. }
  rewrite Hcp, !Hf, !Hl. split.
  - intros a b x y -> -> -> ->. reflexivity.
  - destruct (head la ≫= head), (last la ≫= last), (head lo ≫= head),
      (last lo ≫= last); simpl; try reflexivity.
    intros [H|[H|[H|H]]]; discriminate H.
Qed.

Lemma grid_corner_points_witness :
  corner_points (Some sw_corner) None (Some sample_grid) (Some sample_lons)
  = Ok {| ll_lat := Some 21; ll_lon := Some (-123);
          ur_lat := Some 47; ur_lon := Some (-61) |} /\
  corner_points None None (Some sample_grid) (Some [[]]) = Raise IndexError.
Proof.
  assert (H1 : ~ (is_Some (Some sw_corner) /\ is_Some (@None CoordPair))).
  { intros [_ [x Hx]]. discriminate Hx. }
  assert (H2 : ~ (is_Some (@None CoordPair) /\ is_Some (@None CoordPair))).
  { intros [_ [x Hx]]. discriminate Hx. }
  split.
  - exact (proj1 (grid_corner_points (Some sw_corner) None sample_grid
                    sample_lons H1) 21 47 (-123) (-61)
             eq_refl eq_refl eq_refl eq_refl).
  - exact (proj2 (grid_corner_points None None sample_grid [[]] H2)
             (or_intror (or_intror (or_introl eq_refl)))).
Defined.

(** ** When a construction returns *)

(** X5.  With valid corners, the RotatedLatLon construction returns an
    object exactly when the standard longitude is known and the pole
    latitude or the MOAD centre latitude is known; otherwise it raises
    [TypeError]. *)
Theorem rotated_construction_returns bl tr lats lons kw c :
  corner_points bl tr lats lons = Ok c ->
  let b := base_attrs c kw in
  ((exists p, RotatedLatLon_init bl tr lats lons kw = Ok p) <->
   stand_lon b <> None /\ (pole_lat b <> None \/ moad_cen_lat b <> None)) /\
  (~ (stand_lon b <> None /\ (pole_lat b <> None \/ moad_cen_lat b <> None))
   -> RotatedLatLon_init bl tr lats lons kw = Raise TypeError).
Proof.
  intros Hc b.
  assert (Hr : ~ constructible CRotatedLatLon b ->
               RotatedLatLon_init bl tr lats lons kw = Raise TypeError).
  { intros H.
    exact (init_of_type_error CRotatedLatLon bl tr lats lons kw c Hc H). }
  split; [|exact Hr]. split.
  - intros (p & Hp).
    destruct (constructible_dec CRotatedLatLon b) as [H|H]; [exact H|].
    rewrite (Hr H) in Hp. discriminate Hp.
  - intros H.
    destruct (RotatedLatLon_init_ok bl tr lats lons kw c Hc H) as (r & Hi).
    eauto.
Qed.

Lemma rotated_construction_returns_witness :
  corner_points (Some sw_corner) (Some ne_corner) None None
    = Ok sample_corners /\
  (exists p, RotatedLatLon_init (Some sw_corner) (Some ne_corner) None None
               fallback_bag = Ok p) /\
  RotatedLatLon_init (Some sw_corner) (Some ne_corner) None None
    [("POLE_LAT", Some 36); ("POLE_LON", Some 0)] = Raise TypeError.
Proof.
  split; [reflexivity|]. split.
  - apply (proj1 (rotated_construction_returns (Some sw_corner)
                    (Some ne_corner) None None fallback_bag sample_corners
                    eq_refl)).
    split; [|right]; vm_compute; discriminate.
  - apply (proj2 (rotated_construction_returns (Some sw_corner)
                    (Some ne_corner) None None
                    [("POLE_LAT", Some 36); ("POLE_LON", Some 0)]
                    sample_corners eq_refl)).
    intros [H _]. apply H. reflexivity.
Defined.

(** X6.  The base, LambertConformal, Mercator and LatLon constructors do no
    arithmetic on the bag: whatever the bag holds, they return an object
    exactly when the corner block does, and otherwise raise what the corner
    block raised. *)
Theorem constructors_total_on_bags cls bl tr lats lons kw :
  cls <> CPolarStereographic -> cls <> CRotatedLatLon ->
  (forall c, corner_points bl tr lats lons = Ok c ->
             exists p, init_of cls bl tr lats lons kw = Ok p /\
                       class_of p = cls /\ base_of p = base_attrs c kw) /\
  (forall e, init_of cls bl tr lats lons kw = Raise e <->
             corner_points bl tr lats lons = Raise e).
Proof.
  intros Hp Hr.
  assert (Hk : forall c, constructible cls (base_attrs c kw)).
  { intros c. destruct cls; try exact I; contradiction. }
  split.
  - intros c Hc. exact (init_of_ok cls bl tr lats lons kw c Hc (Hk c)).
  - intros e. split; [|apply init_of_raise].
    intros H. destruct (corner_points bl tr lats lons) as [c|e'] eqn:Hc.
    + destruct (init_of_ok cls bl tr lats lons kw c Hc (Hk c)) as (p & Hi & _).
      rewrite Hi in H. discriminate H.
    + rewrite (init_of_raise cls _ _ _ _ kw _ Hc) in H.
      injection H as <-. reflexivity.
Qed.

Lemma constructors_total_on_bags_witness :
  CMercator <> CPolarStereographic /\ CMercator <> CRotatedLatLon /\
  (exists p, init_of CMercator (Some sw_corner) (Some ne_corner) None None []
             = Ok p /\ class_of p = CMercator) /\
  init_of CMercator None None (Some []) (Some sample_lons) []
  = Raise IndexError.
Proof.
  assert (H1 : CMercator <> CPolarStereographic) by discriminate.
  assert (H2 : CMercator <> CRotatedLatLon) by discriminate.
  split; [exact H1|]. split; [exact H2|]. split.
  - destruct (proj1 (constructors_total_on_bags CMercator (Some sw_corner)
                      (Some ne_corner) None None [] H1 H2)
                sample_corners eq_refl) as (p & Hi & Hc & _).
    exists p. split; assumption.
  - apply (proj2 (constructors_total_on_bags CMercator None None (Some [])
                    (Some sample_lons) [] H1 H2)).
    reflexivity.
Defined.

(** ** The factory on unusual bags *)

(** X7.  A bag whose MAP_PROJ entry is present but holds [None] is not
    treated like a bag without MAP_PROJ: the code is [None], it equals no
    projection code, and with valid corners [getproj] returns a base-class
    object, whatever the code table. *)
Theorem getproj_none_code T bl tr lats lons kw c :
  dict_keys_to_upper kw !! "MAP_PROJ" = Some None ->
  corner_points bl tr lats lons = Ok c ->
  getproj T bl tr lats lons kw = Ok (Base (base_attrs c kw)).
Proof.
  intros Hm Hc. unfold getproj, get. rewrite Hm. simpl.
  unfold Base_init. rewrite (WrfProj_init_ok _ _ _ _ kw _ Hc). reflexivity.
Qed.

Lemma getproj_none_code_witness :
  dict_keys_to_upper none_code_bag !! "MAP_PROJ" = Some None /\
  corner_points (Some sw_corner) (Some ne_corner) None None
    = Ok sample_corners /\
  getproj wrf_codes (Some sw_corner) (Some ne_corner) None None none_code_bag
  = Ok (Base (base_attrs sample_corners none_code_bag)).
Proof.
  split; [reflexivity|]. split; [reflexivity|].
  exact (getproj_none_code wrf_codes (Some sw_corner) (Some ne_corner)
           None None none_code_bag sample_corners eq_refl eq_refl).
Defined.

(** ** Mercator and cartopy *)

(** X9.  The true-scale latitude of a constructed Mercator object is never
    the number 0 (a truelat1 of 0 is stored as [None]), so the branch of
    [_cartopy] that builds a plain [crs.Mercator] is never taken: with
    cartopy enabled the object always asks for [MercatorWithLatTS], handing
    it the stored true-scale latitude, which is [None] when truelat1 is 0. *)
Theorem mercator_cartopy_class R bl tr lats lons kw p :
  Mercator_init bl tr lats lons kw = Ok p ->
  exists b lat_ts kws,
    p = Mercator b lat_ts /\
    ~ is_num lat_ts 0 /\
    _cartopy R true p = Ok (Some ("MercatorWithLatTS", kws)) /\
    mget "latitude_true_scale" kws = Some (VNum lat_ts) /\
    (is_num (truelat1 b) 0 -> lat_ts = None).
Proof.
  unfold Mercator_init.
  destruct (corner_points bl tr lats lons) as [c|e] eqn:Hc;
    [rewrite (WrfProj_init_ok _ _ _ _ kw _ Hc)
    |rewrite (WrfProj_init_raise _ _ _ _ kw _ Hc); discriminate].
  generalize (base_attrs c kw). intros b. simpl. intros [= <-].
  assert (Hz : py_eq (if py_eq (truelat1 b) 0 || _ismissing (truelat1 b)
                      then None else truelat1 b) 0 = false).
  { destruct (py_eq (truelat1 b) 0) eqn:E0; simpl; [reflexivity|].
    destruct (_ismissing (truelat1 b)); [reflexivity | exact E0]. }
  eexists b, _, _. split; [reflexivity|].
  split; [apply py_eq_false; exact Hz|].
  split; [simpl; rewrite Hz; reflexivity|]. split; [reflexivity|].
  intros H. apply py_eq_true in H. rewrite H. reflexivity.
Qed.

Lemma mercator_cartopy_class_witness :
  exists b kws,
    Mercator_init (Some sw_corner) (Some ne_corner) None None
      equator_mercator_bag = Ok (Mercator b None) /\
    truelat1 b = Some 0 /\
    _cartopy earth_radius true (Mercator b None)
    = Ok (Some ("MercatorWithLatTS", kws)) /\
    mget "latitude_true_scale" kws = Some (VNum None).
Proof.
  destruct (mercator_cartopy_class earth_radius (Some sw_corner)
              (Some ne_corner) None None equator_mercator_bag
              (Mercator (base_attrs sample_corners equator_mercator_bag) None)
              eq_refl)
    as (b & lat_ts & kws & Hp & _ & Hc & Hg & _).
  injection Hp as <- <-.
  exists (base_attrs sample_corners equator_mercator_bag), kws.
  split; [reflexivity|]. split; [reflexivity|]. split; assumption.
Defined.

(** ** RotatedLatLon: the derived quantities *)

(** Everything the attribute block stores, in each of its two branches. *)
Lemma rotated_attrs_fields (b : WrfProj) (n : bool) (r : Rotated) :
  rotated_attrs b n = Ok r ->
  exists s,
    stand_lon b = Some s /\ _north r = n /\
    _bm_lon_0 r = Some (if n then - s else 180 - s) /\
    _cart_pole_lon r = Some (if n then - s - 180 else - s) /\
    ((exists pl,
        pole_lat b = Some pl /\
        _pyngl_cen_lat r = Some (if n then 90 - pl else pl - 90) /\
        _pyngl_cen_lon r = Some (if n then - s else 180 - s) /\
        _bm_cart_pole_lat r = Some (if n then pl else - pl)) \/
     (pole_lat b = None /\
      exists m,
        moad_cen_lat b = Some m /\
        _pyngl_cen_lat r = Some m /\
        _pyngl_cen_lon r = Some s /\
        _bm_cart_pole_lat r = Some (if n then 90 - m else -90 - m))).
Proof.
  unfold rotated_attrs.
  destruct (pole_lat b) as [pl|], (stand_lon b) as [s|], n,
    (moad_cen_lat b) as [m|]; simpl; intros [= <-]; simpl;
    exists s; repeat split; eauto 10.
Qed.

(** X10.  The PROJ.4 descriptor of a constructed RotatedLatLon object is
    put together from the derived fields: [+lon_0] is 180 plus the dateline
    longitude given to cartopy, [+o_lat_p] is the pole latitude given to
    basemap, cartopy and the CF mapping, [+o_lon_p] is 180 minus the pole
    longitude, and [+to_meter] is one degree in radians.  Without a pole
    longitude the descriptor cannot be built: [_proj4] raises
    [TypeError]. *)
Theorem rotated_proj4 R bl tr lats lons kw b r :
  RotatedLatLon_init bl tr lats lons kw = Ok (RotatedLatLon b r) ->
  exists d,
    _cart_pole_lon r = Some d /\
    (forall pl, pole_lon b = Some pl ->
       exists m,
         _proj4 R (RotatedLatLon b r) = Ok (Some m) /\
         mget "+proj" m = Some (VStr "ob_tran") /\
         mget "+o_proj" m = Some (VStr "latlon") /\
         mget "+to_meter" m = Some VRadians1 /\
         mget "+o_lon_p" m = Some (VNum (Some (180 - pl))) /\
         mget "+o_lat_p" m = Some (VNum (_bm_cart_pole_lat r)) /\
         mget "+lon_0" m = Some (VNum (Some (180 + d)))) /\
    (pole_lon b = None -> _proj4 R (RotatedLatLon b r) = Raise TypeError).
Proof.
  intros H.
  apply RotatedLatLon_init_inv in H as (c & n & r' & _ & _ & Hr & Hp).
  injection Hp as Hb Hr'. rewrite <- Hb, <- Hr' in Hr. clear Hb Hr' c r'.
  apply rotated_attrs_fields in Hr as (s & _ & _ & _ & Hd & _).
  eexists. split; [exact Hd|]. split.
  - intros pl Hpl. simpl. rewrite Hpl, Hd. simpl.
    eexists. split; [reflexivity|]. repeat split; reflexivity.
  - intros Hpl. simpl. rewrite Hpl. reflexivity.
Qed.

Lemma rotated_proj4_witness :
  exists b r m,
    RotatedLatLon_init (Some sw_corner) (Some ne_corner) None None
      northern_bag = Ok (RotatedLatLon b r) /\
    pole_lon b = Some 180 /\
    _proj4 earth_radius (RotatedLatLon b r) = Ok (Some m) /\
    mget "+o_lon_p" m = Some (VNum (Some (180 - 180))) /\
    mget "+lon_0" m = Some (VNum (Some (180 + (- 10 - 180)))).
Proof.
  assert (Hi : RotatedLatLon_init (Some sw_corner) (Some ne_corner) None None
                 northern_bag
               = Ok (RotatedLatLon (base_attrs sample_corners northern_bag)
                       {| _north := true;
                          _pyngl_cen_lat := Some (90 - 54);
                          _pyngl_cen_lon := Some (- 10);
                          _bm_lon_0 := Some (- 10);
                          _bm_cart_pole_lat := Some 54;
                          _cart_pole_lon := Some (- 10 - 180) |}))
    by reflexivity.
  destruct (rotated_proj4 earth_radius (Some sw_corner) (Some ne_corner)
              None None northern_bag _ _ Hi) as (d & Hd & Hm & _).
  injection Hd as <-.
  destruct (Hm 180 eq_refl) as (m & H4 & _ & _ & _ & Hlon & _ & Hl0).
  eexists _, _, m. split; [exact Hi|]. split; [reflexivity|].
  split; [exact H4|]. split; [exact Hlon | exact Hl0].
Defined.

(** X11.  The latitudes and longitudes a constructed RotatedLatLon object
    derives for its consumers, by branch.  With a pole latitude [pl] known:
    the PyNGL centre latitude is [90 - pl] north and [pl - 90] south, the
    pole latitude of basemap, cartopy and CF is [pl] north and [- pl]
    south, and the PyNGL centre longitude is the basemap longitude.  With
    the pole latitude unknown: the PyNGL centre is the MOAD centre latitude
    [m] and the standard longitude themselves, and the pole latitude is
    [90 - m] north and [-90 - m] south.  In both branches the basemap
    longitude is [- s] north and [180 - s] south, for the standard
    longitude [s]. *)
Theorem rotated_derived_fields bl tr lats lons kw b r :
  RotatedLatLon_init bl tr lats lons kw = Ok (RotatedLatLon b r) ->
  exists s,
    stand_lon b = Some s /\
    _bm_lon_0 r = Some (if _north r then - s else 180 - s) /\
    ((exists pl,
        pole_lat b = Some pl /\
        _pyngl_cen_lat r = Some (if _north r then 90 - pl else pl - 90) /\
        _bm_cart_pole_lat r = Some (if _north r then pl else - pl) /\
        _pyngl_cen_lon r = _bm_lon_0 r) \/
     (pole_lat b = None /\
      exists m,
        moad_cen_lat b = Some m /\
        _pyngl_cen_lat r = Some m /\
        _bm_cart_pole_lat r = Some (if _north r then 90 - m else -90 - m) /\
        _pyngl_cen_lon r = Some s)).
Proof.
  intros H.
  apply RotatedLatLon_init_inv in H as (c & n & r' & _ & _ & Hr & Hp).
  injection Hp as Hb Hr'. rewrite <- Hb, <- Hr' in Hr. clear Hb Hr' c r'.
  apply rotated_attrs_fields in Hr
    as (s & Hs & Hn & Hl0 & _ & [(p & Hp & Hcl & Hcn & Hpl)
                                |(Hp & m & Hm & Hcl & Hcn & Hpl)]);
    exists s; rewrite Hn; (split; [exact Hs|]); (split; [exact Hl0|]).
  - left. exists p. rewrite Hcn, Hl0. auto.
  - right. split; [exact Hp|]. exists m. auto.
Qed.

Lemma rotated_derived_fields_witness :
  exists b r,
    RotatedLatLon_init (Some sw_corner) (Some ne_corner) None None
      south_fallback_bag = Ok (RotatedLatLon b r) /\
    pole_lat b = None /\ _north r = false /\
    _pyngl_cen_lat r = Some (-30) /\ _pyngl_cen_lon r = Some 25 /\
    _bm_cart_pole_lat r = Some (-90 - -30) /\ _bm_lon_0 r = Some (180 - 25).
Proof.
  assert (Hi : RotatedLatLon_init (Some sw_corner) (Some ne_corner) None None
                 south_fallback_bag
               = Ok (RotatedLatLon
                       (base_attrs sample_corners south_fallback_bag)
                       {| _north := false;
                          _pyngl_cen_lat := Some (-30);
                          _pyngl_cen_lon := Some 25;
                          _bm_lon_0 := Some (180 - 25);
                          _bm_cart_pole_lat := Some (-90 - -30);
                          _cart_pole_lon := Some (- 25) |}))
    by reflexivity.
  destruct (rotated_derived_fields (Some sw_corner) (Some ne_corner) None
              None south_fallback_bag _ _ Hi)
    as (s & Hs & Hl0 & [(pl & Hpl & _)|(Hpl & m & Hm & Hcl & Hbm & Hcn)]);
    [discriminate Hpl|].
  eexists _, _. split; [exact Hi|]. split; [exact Hpl|].
  split; [reflexivity|]. injection Hs as <-. injection Hm as <-.
  split; [exact Hcl|]. split; [exact Hcn|]. split; [exact Hbm | exact Hl0].
Defined.

(** ** The public accessors *)

(** X12.  The accessors [pyngl], [basemap] and [cartopy] raise
    [RuntimeError] on every object when their toolkit is disabled.  With the
    toolkits enabled, a base-class object and a [NullProjection] get [None]
    from all three, and have neither a CF mapping nor a PROJ.4 descriptor;
    an object of a subclass makes [pyngl] raise [TypeError], at the first
    [bytes("...")] of its builder, and makes [basemap] hand the object's
    keyword set to the [Basemap] constructor and return what that returns,
    its exception included. *)
Theorem accessors_gated R (B : Type) (Bm : mapping -> result B)
    (o : WrfObject) resolution :
  pyngl false o = Raise RuntimeError /\
  basemap R false B Bm o resolution = Raise RuntimeError /\
  cartopy R false o = Raise RuntimeError /\
  (o = NullProjection \/ (exists b, o = Constructed (Base b)) ->
   pyngl true o = Ok None /\
   basemap R true B Bm o resolution = Ok None /\
   cartopy R true o = Ok None /\
   cf R o = None /\ proj4 R o = Ok None) /\
  (forall p, o = Constructed p -> class_of p <> CWrfProj ->
     pyngl true o = Raise TypeError /\
     exists keywords,
       _basemap R true p resolution = Some keywords /\
       basemap R true B Bm o resolution
       = (m <-- Bm keywords ;; Ok (Some m))).
Proof.
  split; [reflexivity|]. split; [reflexivity|]. split; [reflexivity|].
  split.
  - intros [->|(b & ->)]; repeat split; reflexivity.
  - intros p -> Hc. destruct p; try contradiction;
      (split; [reflexivity|]); eexists; split; reflexivity.
Qed.

Lemma accessors_gated_witness :
  pyngl true (Constructed latlon_object) = Raise TypeError /\
  (exists keywords,
     basemap earth_radius true mapping keeping_Basemap
       (Constructed latlon_object) "l" = Ok (Some keywords) /\
     mget "projection" keywords = Some (VStr "cyl")) /\
  basemap earth_radius true mapping failing_Basemap
    (Constructed latlon_object) "l" = Raise RuntimeError /\
  pyngl true NullProjection = Ok None.
Proof.
  assert (Hc : class_of latlon_object <> CWrfProj) by discriminate.
  destruct (accessors_gated earth_radius mapping keeping_Basemap
              (Constructed latlon_object) "l") as (_ & _ & _ & _ & Hk).
  destruct (Hk latlon_object eq_refl Hc) as (Hp & kws & Hkw & Hb).
  destruct (accessors_gated earth_radius mapping failing_Basemap
              (Constructed latlon_object) "l") as (_ & _ & _ & _ & Hf).
  destruct (Hf latlon_object eq_refl Hc) as (_ & kws' & _ & Hb').
  destruct (accessors_gated earth_radius mapping keeping_Basemap
              NullProjection "l") as (_ & _ & _ & Hn & _).
  destruct (Hn (or_introl eq_refl)) as (Hnull & _).
  split; [exact Hp|]. split.
  - exists kws. split; [exact Hb|]. injection Hkw as <-. reflexivity.
  - split; [exact Hb' | exact Hnull].
Defined.

(** X13.  Whatever the class, the keyword set handed to [Basemap] carries
    the object's four corner values, the earth radius as [rsphere] and the
    resolution asked for. *)
Theorem basemap_carries_corners R bm p resolution :
  let c := corners (base_of p) in
  forall m, _basemap R bm p resolution = Some m ->
    mget "llcrnrlat" m = Some (VNum (ll_lat c)) /\
    mget "urcrnrlat" m = Some (VNum (ur_lat c)) /\
    mget "llcrnrlon" m = Some (VNum (ll_lon c)) /\
    mget "urcrnrlon" m = Some (VNum (ur_lon c)) /\
    mget "rsphere" m = Some (VNum (Some R)) /\
    mget "resolution" m = Some (VStr resolution).
Proof.
  intros c m H.
  destruct bm, p; simpl in H; try discriminate H;
    injection H as <-; repeat split; reflexivity.
Qed.

Lemma basemap_carries_corners_witness :
  exists b r m,
    RotatedLatLon_init (Some sw_corner) (Some ne_corner) None None
      northern_bag = Ok (RotatedLatLon b r) /\
    _basemap earth_radius true (RotatedLatLon b r) "h" = Some m /\
    mget "llcrnrlat" m = Some (VNum (Some 21)) /\
    mget "urcrnrlon" m = Some (VNum (Some (-61))) /\
    mget "resolution" m = Some (VStr "h").
Proof.
  eexists _, _, _. split; [vm_compute; reflexivity|].
  split; [reflexivity|].
  destruct (basemap_carries_corners earth_radius true
              (RotatedLatLon (base_attrs sample_corners northern_bag)
                 {| _north := true;
                    _pyngl_cen_lat := Some 36;
                    _pyngl_cen_lon := Some (-10);
                    _bm_lon_0 := Some (-10);
                    _bm_cart_pole_lat := Some 54;
                    _cart_pole_lon := Some (-190) |}) "h" _ eq_refl)
    as (H1 & _ & _ & H4 & _ & H6).
  split; [exact H1|]. split; [exact H4 | exact H6].
Defined.

(** ** Extents *)

(** X14.  An object of the base class or of LatLon answers [cartopy_xlim]
    and [cartopy_ylim] with its raw corner longitudes and latitudes, whether
    or not cartopy is enabled.  An object of another subclass raises
    [NameError] when cartopy is disabled, and with cartopy enabled answers
    with what [transform_points] of its own [crs] object makes of the two
    corners.  A [NullProjection] has no corners and raises
    [AttributeError]. *)
Theorem extents_by_class R cart tp (o : WrfObject) :
  (forall p, o = Constructed p ->
     class_of p = CWrfProj \/ class_of p = CLatLon ->
     let c := corners (base_of p) in
     cartopy_xlim R cart tp o = Ok [ll_lon c; ur_lon c] /\
     cartopy_ylim R cart tp o = Ok [ll_lat c; ur_lat c]) /\
  (forall p, o = Constructed p ->
     class_of p <> CWrfProj -> class_of p <> CLatLon ->
     let c := corners (base_of p) in
     cartopy_xlim R false tp o = Raise NameError /\
     cartopy_ylim R false tp o = Raise NameError /\
     forall crs xs ys,
       _cartopy R true p = Ok (Some crs) ->
       tp crs [ll_lon c; ur_lon c] [ll_lat c; ur_lat c] = Ok (xs, ys) ->
       cartopy_xlim R true tp o = Ok (map Some xs) /\
       cartopy_ylim R true tp o = Ok (map Some ys)) /\
  (o = NullProjection ->
   cartopy_xlim R cart tp o = Raise AttributeError /\
   cartopy_ylim R cart tp o = Raise AttributeError).
Proof.
  unfold cartopy_xlim, cartopy_ylim. split; [|split].
  - intros p -> [H|H]; destruct p; try discriminate H; split; reflexivity.
  - intros p -> H1 H2. destruct p; try contradiction;
      (split; [reflexivity|]); (split; [reflexivity|]);
      intros crs xs ys Hc Ht; unfold _cart_extents;
      cbn [negb base_of corners]; rewrite Hc; cbn [bind];
      cbn [base_of] in Ht; rewrite Ht; split; reflexivity.
  - intros ->. split; reflexivity.
Qed.

Lemma extents_by_class_witness :
  class_of latlon_object = CLatLon /\
  cartopy_xlim earth_radius false (fun _ _ _ => Raise RuntimeError)
    (Constructed latlon_object) = Ok [Some (-123); Some (-61)] /\
  cartopy_ylim earth_radius false (fun _ _ _ => Raise RuntimeError)
    (Constructed latlon_object) = Ok [Some 21; Some 47] /\
  cartopy_xlim earth_radius false (fun _ _ _ => Raise RuntimeError)
    (Constructed polar_object) = Raise NameError.
Proof.
  split; [reflexivity|].
  destruct (extents_by_class earth_radius false
              (fun _ _ _ => Raise RuntimeError) (Constructed latlon_object))
    as (Hraw & _).
  destruct (Hraw latlon_object eq_refl (or_intror eq_refl)) as [Hx Hy].
  destruct (extents_by_class earth_radius false
              (fun _ _ _ => Raise RuntimeError) (Constructed polar_object))
    as (_ & Hother & _).
  assert (H1 : class_of polar_object <> CWrfProj) by discriminate.
  assert (H2 : class_of polar_object <> CLatLon) by discriminate.
  destruct (Hother polar_object eq_refl H1 H2) as (Hn & _).
  split; [exact Hx|]. split; [exact Hy | exact Hn].
Defined.

(** ** The CF mapping *)

(** X15.  The objects without a CF mapping are those of the base class and
    the [NullProjection].  Every other object's mapping names its grid
    mapping, and the name tells the classes apart: two objects whose CF
    mappings carry the same [grid_mapping_name] are of the same class. *)
Theorem cf_names_the_class R (o o' : WrfObject) :
  (cf R o = None <->
   o = NullProjection \/ exists b, o = Constructed (Base b)) /\
  (forall m, cf R o = Some m ->
             exists s, mget "grid_mapping_name" m = Some (VStr s)) /\
  (forall m m' p p',
     o = Constructed p -> o' = Constructed p' ->
     cf R o = Some m -> cf R o' = Some m' ->
     mget "grid_mapping_name" m = mget "grid_mapping_name" m' ->
     class_of p = class_of p').
Proof.
  split; [|split].
  - destruct o as [p|]; simpl.
    + destruct p; simpl; split; intros H; try discriminate H; eauto;
        destruct H as [H|(b' & H)]; discriminate H.
    + split; auto.
  - intros m H. destruct o as [p|]; simpl in H; [|discriminate H].
    destruct p; simpl in H; try discriminate H;
      injection H as <-; eexists; reflexivity.
  - intros m m' p p' -> -> Hp Hq. simpl in Hp, Hq.
    destruct p; simpl in Hp; try discriminate Hp;
      injection Hp as <-;
      destruct p'; simpl in Hq; try discriminate Hq;
      injection Hq as <-; simpl; intros H;
      try reflexivity; discriminate H.
Qed.

Lemma cf_names_the_class_witness :
  cf earth_radius NullProjection = None /\
  exists m m',
    cf earth_radius (Constructed latlon_object) = Some m /\
    cf earth_radius (Constructed polar_object) = Some m' /\
    mget "grid_mapping_name" m <> mget "grid_mapping_name" m'.
Proof.
  destruct (cf_names_the_class earth_radius NullProjection NullProjection)
    as ([_ Hn] & _).
  split; [exact (Hn (or_introl eq_refl))|].
  eexists _, _. split; [reflexivity|]. split; [reflexivity|].
  intros E.
  destruct (cf_names_the_class earth_radius (Constructed latlon_object)
              (Constructed polar_object)) as (_ & _ & Hinj).
  pose proof (Hinj _ _ latlon_object polar_object eq_refl eq_refl eq_refl
                eq_refl E) as Hc.
  discriminate Hc.
Defined.

(** ** MercatorWithLatTS: what the limits block keeps *)

(** X16.  The limits block of [MercatorWithLatTS] leaves the y-limits as
    they were computed, leaves x-limits that differ untouched, and in every
    case changes an x-limit at most in sign; when the two x-limits agree,
    exactly one of them is negated.  The threshold is computed from the
    final x-limits, not from the computed ones. *)
Theorem mercator_limits_kept (limits : (Q * Q) * (Q * Q)) :
  let x0 := fst (fst limits) in
  let x1 := fst (snd limits) in
  let m := MercatorWithLatTS_init limits in
  _ylimits m = (snd (fst limits), snd (snd limits)) /\
  (~ x0 == x1 -> _xlimits m = (x0, x1)) /\
  (x0 == x1 -> _xlimits m = (x0, - x1) \/ _xlimits m = (- x0, x1)) /\
  (fst (_xlimits m) = x0 \/ fst (_xlimits m) = - x0) /\
  (snd (_xlimits m) = x1 \/ snd (_xlimits m) = - x1) /\
  _threshold m = (snd (_xlimits m) - fst (_xlimits m)) / 720.
Proof.
  destruct limits as [[x0 y0] [x1 y1]]. simpl.
  split; [reflexivity|]. split.
  { intros Hne. destruct (Qeq_bool x0 x1) eqn:E; [|reflexivity].
    apply Qeq_bool_iff in E. contradiction. }
  split.
  { intros Heq. apply Qeq_bool_iff in Heq. rewrite Heq.
    destruct (Qltb x0 0); auto. }
  split; [destruct (Qeq_bool x0 x1), (Qltb x0 0); simpl; auto|].
  split; [destruct (Qeq_bool x0 x1), (Qltb x0 0); simpl; auto|].
  reflexivity.
Qed.

Lemma mercator_limits_kept_witness :
  let m := MercatorWithLatTS_init
             ((-20015000, -15496000), (20015000, 18764000)) in
  ~ -20015000 == 20015000 /\
  _xlimits m = (-20015000, 20015000) /\
  _ylimits m = (-15496000, 18764000).
Proof.
  assert (Hne : ~ -20015000 == 20015000) by (vm_compute; discriminate).
  destruct (mercator_limits_kept
              ((-20015000, -15496000), (20015000, 18764000)))
    as (Hy & Hx & _).
  split; [exact Hne|]. split; [exact (Hx Hne) | exact Hy].
Defined.

(** ** PolarStereographic: one hemisphere in every representation *)

Lemma PolarStereographic_init_inv bl tr lats lons kw p :
  PolarStereographic_init bl tr lats lons kw = Ok p ->
  exists c t,
    corner_points bl tr lats lons = Ok c /\
    truelat1 (base_attrs c kw) = Some t /\
    p = PolarStereographic (base_attrs c kw)
          (if Qltb t 0 then -90 else 90)
          (if _ismissing (Some t) then None else Some t).
Proof.
  unfold PolarStereographic_init.
  destruct (corner_points bl tr lats lons) as [c|e] eqn:Hc;
    [rewrite (WrfProj_init_ok _ _ _ _ kw _ Hc)
    |rewrite (WrfProj_init_raise _ _ _ _ kw _ Hc); discriminate].
  exists c. revert H. generalize (base_attrs c kw). intros b. simpl.
  destruct (truelat1 b) as [t|]; simpl; [|discriminate].
  intros [= <-]. exists t. auto.
Qed.

(** X17.  The hemisphere origin of a constructed PolarStereographic object
    is 90 or -90, and the representations that are built carry that same
    value: the [lat_0] keyword of basemap, the [central_latitude] keyword of
    cartopy, the PROJ.4 token and the CF mapping. *)
Theorem polar_hemisphere_everywhere R bl tr lats lons kw p resolution :
  PolarStereographic_init bl tr lats lons kw = Ok p ->
  exists b hemi lat_ts mbm kws m4 mcf,
    p = PolarStereographic b hemi lat_ts /\
    (hemi = 90 \/ hemi = -90) /\
    _basemap R true p resolution = Some mbm /\
    mget "lat_0" mbm = Some (VNum (Some hemi)) /\
    _cartopy R true p = Ok (Some ("Stereographic", kws)) /\
    mget "central_latitude" kws = Some (VNum (Some hemi)) /\
    _proj4 R p = Ok (Some m4) /\
    mget "+lat0" m4 = Some (VNum (Some hemi)) /\
    _cf_params R p = Some mcf /\
    mget "latitude_of_projection_origin" mcf = Some (VNum (Some hemi)).
Proof.
  intros H. apply PolarStereographic_init_inv in H as (c & t & _ & _ & ->).
  generalize (base_attrs c kw). intros b.
  destruct (Qltb t 0); eexists b, _, _, _, _, _, _;
    (split; [reflexivity|]); (split; [auto|]);
    repeat (split; [reflexivity|]); reflexivity.
Qed.

Lemma polar_hemisphere_everywhere_witness :
  exists b lat_ts mbm,
    PolarStereographic_init (Some sw_corner) (Some ne_corner) None None
      polar_bag = Ok (PolarStereographic b (-90) lat_ts) /\
    _basemap earth_radius true (PolarStereographic b (-90) lat_ts) "l"
    = Some mbm /\
    mget "lat_0" mbm = Some (VNum (Some (-90))).
Proof.
  destruct (polar_hemisphere_everywhere earth_radius (Some sw_corner)
              (Some ne_corner) None None polar_bag polar_object "l" eq_refl)
    as (b & hemi & lat_ts & mbm & _ & _ & _ & Hp & _ & Hb & Hg & _).
  injection Hp as <- <- <-.
  exists (base_attrs sample_corners polar_bag), (Some (-71)), mbm.
  split; [reflexivity|]. split; assumption.
Defined.

(** X18.  A constructed PolarStereographic object has a numeric truelat1
    [t].  Its true-scale latitude is [t] when [t] lies in [-90, 90] and
    [None] otherwise; a truelat1 above 90 still selects the northern origin
    and one below -90 the southern origin. *)
Theorem polar_true_scale_latitude bl tr lats lons kw b hemi lat_ts :
  PolarStereographic_init bl tr lats lons kw
  = Ok (PolarStereographic b hemi lat_ts) ->
  exists t,
    truelat1 b = Some t /\
    (-90 <= t /\ t <= 90 -> lat_ts = Some t) /\
    (90 < t -> lat_ts = None /\ hemi = 90) /\
    (t < -90 -> lat_ts = None /\ hemi = -90).
Proof.
  intros H. apply PolarStereographic_init_inv in H as (c & t & _ & Ht & Hp).
  injection Hp as -> -> ->. exists t. split; [exact Ht|].
  simpl. split; [|split].
  - intros [Hlo Hhi].
    assert (E1 : Qltb 90 t = false).
    { apply Qltb_nlt. apply Qle_not_lt. exact Hhi. }
    assert (E2 : Qltb t (-90) = false).
    { apply Qltb_nlt. apply Qle_not_lt. exact Hlo. }
    rewrite E1, E2. reflexivity.
  - intros Hhi. pose proof (proj2 (Qltb_lt 90 t) Hhi) as E1. rewrite E1.
    split; [reflexivity|].
    assert (E : Qltb t 0 = false).
    { apply Qltb_nlt. intros Hn.
      assert (H90 : 90 < 0) by (exact (Qlt_trans _ _ _ Hhi Hn)).
      vm_compute in H90. discriminate H90. }
    rewrite E. reflexivity.
  - intros Hlo. pose proof (proj2 (Qltb_lt t (-90)) Hlo) as E2. rewrite E2.
    rewrite orb_true_r. split; [reflexivity|].
    assert (E : Qltb t 0 = true).
    { apply Qltb_lt. apply (Qlt_trans _ (-90)); [exact Hlo|].
      vm_compute. reflexivity. }
    rewrite E. reflexivity.
Qed.

Lemma polar_true_scale_latitude_witness :
  -90 <= -71 /\ -71 <= 90 /\
  exists t,
    truelat1 (base_attrs sample_corners polar_bag) = Some t /\
    Some (-71) = Some t.
Proof.
  assert (Hlo : -90 <= -71) by (vm_compute; discriminate).
  assert (Hhi : -71 <= 90) by (vm_compute; discriminate).
  split; [exact Hlo|]. split; [exact Hhi|].
  destruct (polar_true_scale_latitude (Some sw_corner) (Some ne_corner)
              None None polar_bag
              (base_attrs sample_corners polar_bag) (-90) (Some (-71))
              eq_refl) as (t & Ht & Hin & _).
  exists t. split; [exact Ht|]. apply Hin.
  injection Ht as <-. split; assumption.
Defined.

(** ** LambertConformal: the list of standard parallels *)

(** X19.  A constructed LambertConformal object hands cartopy the very list
    of standard parallels it puts into the CF mapping.  The list starts with
    truelat1 and has a second entry, truelat2, exactly when the object
    stores a truelat2; it never has more than two entries. *)
Theorem lambert_standard_parallels R bl tr lats lons kw p :
  LambertConformal_init bl tr lats lons kw = Ok p ->
  exists b std kws mcf,
    p = LambertConformal b std /\
    _cartopy R true p = Ok (Some ("LambertConformal", kws)) /\
    mget "standard_parallels" kws = Some (VList std) /\
    _cf_params R p = Some mcf /\
    mget "standard_parallel" mcf = Some (VList std) /\
    head std = Some (truelat1 b) /\
    (truelat2 b = None -> std = [truelat1 b]) /\
    (truelat2 b <> None -> std = [truelat1 b; truelat2 b]).
Proof.
  intros H.
  destruct (corner_points bl tr lats lons) as [c|e] eqn:Hc.
  - rewrite (LambertConformal_init_ok bl tr lats lons kw c Hc) in H.
    revert H. generalize (base_attrs c kw). intros b H.
    assert (Hp : p = LambertConformal b
                       match truelat2 b with
                       | Some _ => [truelat1 b; truelat2 b]
                       | None => [truelat1 b]
                       end) by congruence.
    rewrite Hp. clear H Hp.
    eexists b, _, _, _. split; [reflexivity|].
    split; [reflexivity|]. split; [reflexivity|].
    split; [reflexivity|]. split; [reflexivity|].
    destruct (truelat2 b) as [t2|]; simpl.
    + split; [reflexivity|]. split; [discriminate | reflexivity].
    + split; [reflexivity|]. split; [reflexivity | contradiction].
  - unfold LambertConformal_init in H.
    rewrite (WrfProj_init_raise _ _ _ _ kw _ Hc) in H. discriminate H.
Qed.

Lemma lambert_standard_parallels_witness :
  exists b std kws,
    LambertConformal_init (Some sw_corner) (Some ne_corner) None None
      lambert_two_bag = Ok (LambertConformal b std) /\
    truelat2 b <> None /\
    _cartopy earth_radius true (LambertConformal b std)
    = Ok (Some ("LambertConformal", kws)) /\
    mget "standard_parallels" kws = Some (VList [Some 30; Some 60]).
Proof.
  destruct (lambert_standard_parallels earth_radius (Some sw_corner)
              (Some ne_corner) None None lambert_two_bag _ eq_refl)
    as (b & std & kws & mcf & Hp & Hc & Hg & _ & _ & _ & _ & H2).
  exists b, std, kws. split; [rewrite <- Hp; reflexivity|].
  pose proof Hp as Hp'. injection Hp' as Hb Hs.
  assert (Hn : truelat2 b <> None) by (rewrite <- Hb; discriminate).
  split; [exact Hn|]. split; [rewrite <- Hp; exact Hc|].
  rewrite Hg, (H2 Hn), <- Hb. reflexivity.
Defined.

(** ** The factory and the base class *)

(** X20.  Whatever class [getproj] or a constructor returns, the object's
    corners and attributes are those of the base-class object built from
    the same arguments: the subclasses add derived fields and change none
    of the common ones. *)
Theorem common_attributes_shared cls T bl tr lats lons kw p :
  init_of cls bl tr lats lons kw = Ok p \/
  getproj T bl tr lats lons kw = Ok p ->
  Base_init bl tr lats lons kw = Ok (Base (base_of p)) /\
  map_proj (base_of p) = get (dict_keys_to_upper kw) "MAP_PROJ" None /\
  truelat1 (base_of p) = get (dict_keys_to_upper kw) "TRUELAT1" None /\
  pole_lat (base_of p) = get (dict_keys_to_upper kw) "POLE_LAT" None /\
  pole_lon (base_of p) = get (dict_keys_to_upper kw) "POLE_LON" None /\
  dx (base_of p) = get (dict_keys_to_upper kw) "DX" None /\
  dy (base_of p) = get (dict_keys_to_upper kw) "DY" None.
Proof.
  intros H.
  assert (Hc : exists c, corner_points bl tr lats lons = Ok c /\
                         base_of p = base_attrs c kw).
  { destruct H as [H|H].
    - apply init_of_inv in H as (c & Hc & _ & Hb). eauto.
    - exact (getproj_inv _ _ _ _ _ _ _ H). }
  destruct Hc as (c & Hc & ->). split.
  - unfold Base_init. rewrite (WrfProj_init_ok _ _ _ _ kw _ Hc). reflexivity.
  - repeat split; reflexivity.
Qed.

Lemma common_attributes_shared_witness :
  exists p,
    getproj wrf_codes (Some sw_corner) (Some ne_corner) None None polar_bag
    = Ok p /\ class_of p = CPolarStereographic /\
    Base_init (Some sw_corner) (Some ne_corner) None None polar_bag
    = Ok (Base (base_of p)) /\
    map_proj (base_of p) = Some 2.
Proof.
  eexists. split; [vm_compute; reflexivity|]. split; [reflexivity|].
  destruct (common_attributes_shared CWrfProj wrf_codes (Some sw_corner)
              (Some ne_corner) None None polar_bag _ (or_intror eq_refl))
    as (Hb & Hm & _).
  split; [exact Hb | exact Hm].
Defined.

(** Split a list of "if the class is ... then ..." and keep the one entry
    whose class is the actual one. *)
Ltac by_class :=
  repeat match goal with |- _ /\ _ => split end;
  let Hc := fresh "Hc" in
  intros Hc; try discriminate Hc; clear Hc.

(** X21.  The class of the object [getproj] returns tells which branch was
    taken, for any code table: a LambertConformal, PolarStereographic or
    Mercator object means the type code equals that code; a LatLon object
    means the code is the zero or the lat-lon code and the pole is at
    (90, 0); a RotatedLatLon object means such a code and another pole; a
    base-class object means the code equals none of the five. *)
Theorem getproj_class_tells_code T bl tr lats lons kw p :
  getproj T bl tr lats lons kw = Ok p ->
  let code := type_code kw in
  let plat := get (dict_keys_to_upper kw) "POLE_LAT" None in
  let plon := get (dict_keys_to_upper kw) "POLE_LON" None in
  let zero_or_latlon := is_num code (inject_Z (ZERO T)) \/
                        is_num code (inject_Z (LAT_LON T)) in
  (class_of p = CLambertConformal ->
   is_num code (inject_Z (LAMBERT_CONFORMAL T))) /\
  (class_of p = CPolarStereographic ->
   is_num code (inject_Z (POLAR_STEREOGRAPHIC T))) /\
  (class_of p = CMercator -> is_num code (inject_Z (MERCATOR T))) /\
  (class_of p = CLatLon ->
   zero_or_latlon /\ is_num plat 90 /\ is_num plon 0) /\
  (class_of p = CRotatedLatLon ->
   zero_or_latlon /\ ~ (is_num plat 90 /\ is_num plon 0)) /\
  (class_of p = CWrfProj ->
   ~ is_num code (inject_Z (LAMBERT_CONFORMAL T)) /\
   ~ is_num code (inject_Z (POLAR_STEREOGRAPHIC T)) /\
   ~ is_num code (inject_Z (MERCATOR T)) /\
   ~ zero_or_latlon).
Proof.
  unfold getproj. fold (type_code kw). intros H. cbv zeta.
  assert (Hcls : forall cls, init_of cls bl tr lats lons kw = Ok p ->
                             class_of p = cls).
  { intros cls Hi. apply init_of_inv in Hi as (c & _ & Hc & _). exact Hc. }
  destruct (py_eq (type_code kw) (inject_Z (LAMBERT_CONFORMAL T))) eqn:EL.
  { apply (Hcls CLambertConformal) in H. rewrite H. apply py_eq_true in EL.
    by_class. exact EL. }
  destruct (py_eq (type_code kw) (inject_Z (POLAR_STEREOGRAPHIC T))) eqn:EP.
  { apply (Hcls CPolarStereographic) in H. rewrite H. apply py_eq_true in EP.
    by_class. exact EP. }
  destruct (py_eq (type_code kw) (inject_Z (MERCATOR T))) eqn:EM.
  { apply (Hcls CMercator) in H. rewrite H. apply py_eq_true in EM.
    by_class. exact EM. }
  apply py_eq_false in EL, EP, EM.
  destruct (py_eq (type_code kw) (inject_Z (ZERO T))
            || py_eq (type_code kw) (inject_Z (LAT_LON T))) eqn:EZ.
  - assert (Hz : is_num (type_code kw) (inject_Z (ZERO T)) \/
                 is_num (type_code kw) (inject_Z (LAT_LON T))).
    { apply orb_true_iff in EZ as [E|E]; apply py_eq_true in E; auto. }
    destruct (py_eq (get (dict_keys_to_upper kw) "POLE_LAT" None) 90
              && py_eq (get (dict_keys_to_upper kw) "POLE_LON" None) 0)
      eqn:Epole.
    + apply (Hcls CLatLon) in H. rewrite H.
      apply andb_true_iff in Epole as [E1 E2]. apply py_eq_true in E1, E2.
      by_class. auto.
    + apply (Hcls CRotatedLatLon) in H. rewrite H.
      by_class. split; [exact Hz|].
      intros [H1 H2]. apply py_eq_true in H1, H2.
      rewrite H1, H2 in Epole. discriminate Epole.
  - apply (Hcls CWrfProj) in H. rewrite H.
    apply orb_false_iff in EZ as [E1 E2]. apply py_eq_false in E1, E2.
    by_class. repeat (split; [assumption|]).
    intros [Hn|Hn]; contradiction.
Qed.

Lemma getproj_class_tells_code_witness :
  exists p,
    getproj wrf_codes (Some sw_corner) (Some ne_corner) None None
      rotated_bag = Ok p /\
    class_of p = CRotatedLatLon /\
    ~ (is_num (get (dict_keys_to_upper rotated_bag) "POLE_LAT" None) 90 /\
       is_num (get (dict_keys_to_upper rotated_bag) "POLE_LON" None) 0).
Proof.
  eexists. split; [vm_compute; reflexivity|]. split; [reflexivity|].
  destruct (getproj_class_tells_code wrf_codes (Some sw_corner)
              (Some ne_corner) None None rotated_bag _ eq_refl)
    as (_ & _ & _ & _ & Hr & _).
  exact (proj2 (Hr eq_refl)).
Defined.

(** ** Keys the module does not read *)





(** ** What an object without a pole longitude can produce *)

(** X23.  A RotatedLatLon object built from a bag without POLE_LON (its
    hemisphere inferred from the centre latitude) yields a CF mapping and a
    basemap keyword set, each carrying [None] as the pole longitude, but
    neither a PROJ.4 descriptor nor a cartopy projection nor cartopy
    extents: these subtract the pole longitude from 180 and raise
    [TypeError]. *)
Theorem rotated_without_pole_lon R tp bl tr lats lons kw b r resolution :
  RotatedLatLon_init bl tr lats lons kw = Ok (RotatedLatLon b r) ->
  pole_lon b = None ->
  let o := Constructed (RotatedLatLon b r) in
  (exists m, cf R o = Some m /\
             mget "grid_north_pole_longitude" m = Some (VNum None)) /\
  (exists m, _basemap R true (RotatedLatLon b r) resolution = Some m /\
             mget "o_lon_p" m = Some (VNum None)) /\
  proj4 R o = Raise TypeError /\
  cartopy R true o = Raise TypeError /\
  cartopy_xlim R true tp o = Raise TypeError /\
  cartopy_ylim R true tp o = Raise TypeError.
Proof.
  intros _ Hpl. unfold cf, proj4, cartopy, cartopy_xlim, cartopy_ylim.
  simpl. rewrite Hpl. simpl.
  repeat split; eauto.
Qed.

Lemma rotated_without_pole_lon_witness :
  exists b r,
    RotatedLatLon_init (Some sw_corner) (Some ne_corner) None None
      no_pole_lon_bag = Ok (RotatedLatLon b r) /\
    pole_lon b = None /\ _north r = true /\
    proj4 earth_radius (Constructed (RotatedLatLon b r)) = Raise TypeError.
Proof.
  eexists _, _. split; [vm_compute; reflexivity|].
  split; [reflexivity|]. split; [reflexivity|].
  destruct (rotated_without_pole_lon earth_radius
              (fun _ _ _ => Raise RuntimeError)
              (Some sw_corner) (Some ne_corner) None None no_pole_lon_bag
              _ _ "l" eq_refl eq_refl) as (_ & _ & H4 & _).
  exact H4.
Defined.
